(** * Panel Financiero (src/dashboard.py): data integration and filtering

    A shallow embedding of the pandas pipeline of [dashboard.py]:
    [load_data] (six CSV tables, five left merges, Streamlit's data cache),
    [filter_data] (boolean-mask selection on state and year) and the
    metrics computed in [main] (unique counts, mean, sum, grouped sums).

    Frames are row lists under a list of column labels.  A cell is missing
    ([NaN]), a string or a number.  A number is held as the rational its
    CSV field spells; [nansum] and the metrics built on it add these
    rationals exactly, and the float64 sums pandas computes are given
    beside them ([float_nansum], [kahan_sum]).  CSV parsing is not
    modelled; the file system maps a path to the frame [pd.read_csv]
    yields for it. *)

From Stdlib Require Import QArith Qround Ascii String PrimFloat.
From stdpp Require Import gmap strings list.

Local Open Scope string_scope.
Local Open Scope list_scope.

(** ** Values *)

(** A cell of a frame. *)
Inductive cell : Type :=
  | NaN
  | Str (s : string)
  | Num (q : Q).

(** The Python values [main] hands to [filter_data]: the strings of the
    select boxes (and the sentinel ['All']) and the integer years. *)
Inductive pyval : Type :=
  | PyStr (s : string)
  | PyInt (z : Z).

(** The exceptions the modelled code can raise. *)
Inductive exn : Type :=
  | FileNotFoundError (path : string)
  | KeyError (label : string)
  | ValueError
  | TypeError
  | MergeError
  | ReferenceError.

Inductive result (A : Type) : Type :=
  | Ok (a : A)
  | Raise (e : exn).
Arguments Ok {A} a.
Arguments Raise {A} e.

#[global] Instance result_ret : MRet result := fun _ a => Ok a.
#[global] Instance result_bind : MBind result := fun _ _ f m =>
  match m with
  | Ok a => f a
  | Raise e => Raise e
  end.

(** ** Frames *)

Record DataFrame : Type := mkDataFrame {
  columns : list string;
  rows : list (list cell)
}.

Definition nrows (df : DataFrame) : nat := length (rows df).

(** Position of the first column carrying [label]. *)
Fixpoint index_of (label : string) (cols : list string) : option nat :=
  match cols with
  | [] => None
  | c :: cols' =>
      if String.eqb label c then Some 0%nat
      else S <$> index_of label cols'
  end.

Definition cell_at (i : nat) (r : list cell) : cell := nth i r NaN.

(** [df[label]]: the column as a list of cells, [KeyError] when the frame
    has no such column. *)
Definition get_col (df : DataFrame) (label : string) : result (list cell) :=
  match index_of label (columns df) with
  | Some i => Ok (map (cell_at i) (rows df))
  | None => Raise (KeyError label)
  end.

(** [df.copy()] at the level of values. *)
Definition copy (df : DataFrame) : DataFrame :=
  {| columns := columns df; rows := rows df |}.

(** Elementwise [==] of a cell and a Python scalar.  A missing cell equals
    nothing; a number and a string are never equal; numbers compare by
    value, so the float [2013.0] equals the int [2013].  This is the
    comparison for ints a float64 holds exactly (up to [2^53] in size);
    pandas rounds a larger int and raises [OverflowError] on one beyond
    the float64 range. *)
Definition cell_eq (c : cell) (v : pyval) : bool :=
  match c, v with
  | Str s, PyStr t => String.eqb s t
  | Num q, PyInt z => Qeq_bool q (inject_Z z)
  | _, _ => false
  end.

Definition eq_mask (col : list cell) (v : pyval) : list bool :=
  map (fun c => cell_eq c v) col.

(** Rows kept by a boolean mask, [df[mask]]. *)
Fixpoint select {A} (mask : list bool) (l : list A) : list A :=
  match mask, l with
  | b :: mask', x :: l' =>
      if b then x :: select mask' l' else select mask' l'
  | _, _ => []
  end.

Definition boolean_index (df : DataFrame) (mask : list bool) : DataFrame :=
  {| columns := columns df; rows := select mask (rows df) |}.

(** ** Python's [int()] on the filter value *)

Definition nat_in (n : nat) (ns : list nat) : bool := existsb (Nat.eqb n) ns.

(** The ASCII white space [int()] skips around a number: tab, line feed,
    vertical tab, form feed, carriage return and space. *)
Definition is_space (a : ascii) : bool :=
  nat_in (nat_of_ascii a) [9; 10; 11; 12; 13; 32]%nat.

(** The value of an ASCII decimal digit. *)
Definition digit_of (a : ascii) : option Z :=
  let n := nat_of_ascii a in
  if (48 <=? n)%nat && (n <=? 57)%nat then Some (Z.of_nat (n - 48)) else None.

Fixpoint lstrip (s : string) : string :=
  match s with
  | String a s' => if is_space a then lstrip s' else s
  | EmptyString => EmptyString
  end.

Definition strip (s : string) : string :=
  String.rev (lstrip (String.rev (lstrip s))).

(** Decimal digits with single underscores between digits. *)
Fixpoint parse_digits (s : string) (acc : Z) (after_digit : bool) : option Z :=
  match s with
  | EmptyString => if after_digit then Some acc else None
  | String a s' =>
      match digit_of a with
      | Some d => parse_digits s' (10 * acc + d)%Z true
      | None =>
          if Ascii.eqb a "_"%char && after_digit
          then parse_digits s' acc false
          else None
      end
  end.

Definition parse_int (s : string) : option Z :=
  match strip s with
  | String "-" s' => Z.opp <$> parse_digits s' 0 false
  | String "+" s' => parse_digits s' 0 false
  | s' => parse_digits s' 0 false
  end.

(** [int(v)]: an int is itself, an ASCII string is parsed or raises
    [ValueError].  On a string with other characters the builtin goes by
    the Unicode tables of the interpreter (decimal digits and spaces of
    every script); [filter_data_with] below takes the builtin as a
    parameter for that reason. *)
Definition py_int (v : pyval) : result Z :=
  match v with
  | PyInt z => Ok z
  | PyStr s =>
      match parse_int s with
      | Some z => Ok z
      | None => Raise ValueError
      end
  end.

(** Python's [v != w] on scalars. *)
Definition py_ne (v w : pyval) : bool :=
  match v, w with
  | PyStr s, PyStr t => negb (String.eqb s t)
  | PyInt a, PyInt b => negb (Z.eqb a b)
  | _, _ => true
  end.

Definition All : pyval := PyStr "All".

(** ** [filter_data] (lines 54-62) *)

Definition filter_data (df : DataFrame) (selected_state selected_year : pyval)
    : result DataFrame :=
  let filtered_df := copy df in
  filtered_df ←
    (if py_ne selected_state All then
       col ← get_col filtered_df "State Province";
       mret (boolean_index filtered_df (eq_mask col selected_state))
     else mret filtered_df);
  filtered_df ←
    (if py_ne selected_year All then
       col ← get_col filtered_df "Calendar Year";
       y ← py_int selected_year;
       mret (boolean_index filtered_df (eq_mask col (PyInt y)))
     else mret filtered_df);
  mret filtered_df.

(** [filter_data] with the builtin [int] as a parameter: the same
    statements, whatever [int()] accepts.  [filter_data] is the instance
    at [py_int]. *)
Definition filter_data_with (int : pyval -> result Z) (df : DataFrame)
    (selected_state selected_year : pyval) : result DataFrame :=
  let filtered_df := copy df in
  filtered_df ←
    (if py_ne selected_state All then
       col ← get_col filtered_df "State Province";
       mret (boolean_index filtered_df (eq_mask col selected_state))
     else mret filtered_df);
  filtered_df ←
    (if py_ne selected_year All then
       col ← get_col filtered_df "Calendar Year";
       y ← int selected_year;
       mret (boolean_index filtered_df (eq_mask col (PyInt y)))
     else mret filtered_df);
  mret filtered_df.

(** ** [DataFrame.merge] with [how='left'] *)

(** Equality of join keys, also used by [unique] and [groupby]: as [==]
    on cells, except that two missing keys agree. *)
Definition same_key (a b : cell) : bool :=
  match a, b with
  | NaN, NaN => true
  | Str s, Str t => String.eqb s t
  | Num p, Num q => Qeq_bool p q
  | _, _ => false
  end.

Definition mem (x : string) (l : list string) : bool :=
  existsb (String.eqb x) l.

(** [Index.duplicated()]: every occurrence of a label after its first. *)
Fixpoint duplicated_from (seen l : list string) : list bool :=
  match l with
  | [] => []
  | x :: l' => mem x seen :: duplicated_from (x :: seen) l'
  end.

Definition duplicated (l : list string) : list bool := duplicated_from [] l.

(** A label that became a duplicate through its suffix. *)
Definition suffix_dups (old new : list string) : bool :=
  existsb (fun p => snd p && negb (fst p))
          (zip (duplicated old) (duplicated new)).

Definition rename (overlap : list string) (suffix x : string) : string :=
  if mem x overlap then x ++ suffix else x.

(** Labels of the merged frame.  Labels on both sides take the suffix of
    their side; pandas 2 raises [MergeError] when that creates a
    duplicate, within a frame or with a label of the other frame that took
    no suffix. *)
Definition merge_labels (lcols rcols : list string)
    (suffixes : string * string) : result (list string) :=
  let overlap := List.filter (fun x => mem x rcols) lcols in
  let llabels := map (rename overlap (fst suffixes)) lcols in
  let rlabels := map (rename overlap (snd suffixes)) rcols in
  let lkept := List.filter (fun x => negb (mem x overlap)) lcols in
  let rkept := List.filter (fun x => negb (mem x overlap)) rcols in
  if suffix_dups lcols llabels || suffix_dups rcols rlabels
     || existsb (fun x => mem x rkept) llabels
     || existsb (fun x => mem x lkept) rlabels
  then Raise MergeError
  else Ok (llabels ++ rlabels).

(** The rows a left row joins with: one per right row with the same key,
    in the order of the right frame, or one padded with missing cells. *)
Definition join_row (li : nat) (rkeys : list cell) (rrows : list (list cell))
    (width : nat) (lrow : list cell) : list (list cell) :=
  match select (map (same_key (cell_at li lrow)) rkeys) rrows with
  | [] => [lrow ++ replicate width NaN]
  | matches => map (fun rrow => lrow ++ rrow) matches
  end.

(** [left.merge(right, left_on=.., right_on=.., how='left', suffixes=..)];
    [on=k] is [left_on = right_on = k], and then the key column of the
    right frame is dropped.  Key columns are taken to be of one kind
    (pandas refuses to merge a string key with a numeric one); here such
    keys never match. *)
Definition merge (left right : DataFrame) (left_on right_on : string)
    (suffixes : string * string) : result DataFrame :=
  match index_of right_on (columns right) with
  | None => Raise (KeyError right_on)
  | Some ri =>
      match index_of left_on (columns left) with
      | None => Raise (KeyError left_on)
      | Some li =>
          let rkeys := map (cell_at ri) (rows right) in
          let on := String.eqb left_on right_on in
          let rcols := if on then delete ri (columns right) else columns right in
          let rrows := if on then map (delete ri) (rows right) else rows right in
          labels ← merge_labels (columns left) rcols suffixes;
          mret {| columns := labels;
                  rows := flat_map (join_row li rkeys rrows (length rcols))
                                   (rows left) |}
      end
  end.

(** ** [load_data] (lines 25-46) *)

(** The file system as [pd.read_csv] sees it: a path is absent or holds a
    table. *)
Definition read_csv (fs : gmap string DataFrame) (path : string)
    : result DataFrame :=
  match fs !! path with
  | Some df => Ok df
  | None => Raise (FileNotFoundError path)
  end.

Definition data_path : string := "Data/".

Definition expected_files : list string :=
  map (String.append data_path)
      ["FactSale.csv"; "DimCostumer.csv"; "DimCity.csv"; "DimDate.csv";
       "DimEmployee.csv"; "DimStockItem.csv"].

(** The chain of five left merges (lines 37-41). *)
Definition merge_all (factsale dimcustomer dimcity dimdate dimemployee
    dimstockitem : DataFrame) : result DataFrame :=
  m ← merge factsale dimcustomer "Customer Key" "Customer Key" ("", "_customer");
  m ← merge m dimcity "City Key" "City Key" ("", "_city");
  m ← merge m dimemployee "Salesperson Key" "Employee Key" ("", "_employee");
  m ← merge m dimstockitem "Stock Item Key" "Stock Item Key" ("", "_stock");
  merge m dimdate "Invoice Date Key" "Date" ("_x", "_y").

(** The body of the [try] block. *)
Definition load_data_try (fs : gmap string DataFrame) : result DataFrame :=
  factsale ← read_csv fs (data_path ++ "FactSale.csv");
  dimcustomer ← read_csv fs (data_path ++ "DimCostumer.csv");
  dimcity ← read_csv fs (data_path ++ "DimCity.csv");
  dimdate ← read_csv fs (data_path ++ "DimDate.csv");
  dimemployee ← read_csv fs (data_path ++ "DimEmployee.csv");
  dimstockitem ← read_csv fs (data_path ++ "DimStockItem.csv");
  merged_df ← merge_all factsale dimcustomer dimcity dimdate dimemployee
                        dimstockitem;
  mret merged_df.

(** What Streamlit keeps for the process: the entry of [st.cache_data] for
    [load_data] (the function takes no argument, so there is one entry)
    and the messages shown with [st.error]. *)
Record app_state : Type := mkAppState {
  data_cache : option DataFrame;
  shown_errors : list string
}.

Definition st_error (msg : string) (s : app_state) : app_state :=
  {| data_cache := data_cache s; shown_errors := shown_errors s ++ [msg] |}.

Definition not_found_msg : string :=
  "Error: One or more data files not found. Please check the file paths.".

(** The function under the decorator: the [try] block and its handler,
    which reports a [FileNotFoundError] and raises it again. *)
Definition load_data_body (fs : gmap string DataFrame) (s : app_state)
    : result DataFrame * app_state :=
  match load_data_try fs with
  | Raise (FileNotFoundError p) =>
      (Raise (FileNotFoundError p), st_error not_found_msg s)
  | r => (r, s)
  end.

(** [@st.cache_data]: a stored value is returned without running the
    function; otherwise the function runs, and its value is stored when it
    returns one.  An exception passes through and nothing is stored. *)
Definition cache_data (f : app_state -> result DataFrame * app_state)
    (s : app_state) : result DataFrame * app_state :=
  match data_cache s with
  | Some v => (Ok v, s)
  | None =>
      match f s with
      | (Ok v, s') =>
          (Ok v, {| data_cache := Some v; shown_errors := shown_errors s' |})
      | (Raise e, s') => (Raise e, s')
      end
  end.

Definition load_data (fs : gmap string DataFrame) (s : app_state)
    : result DataFrame * app_state :=
  cache_data (load_data_body fs) s.

(** ** Series operations used by [main] *)

Definition isna (c : cell) : bool :=
  match c with NaN => true | _ => false end.

Definition dropna (col : list cell) : list cell :=
  List.filter (fun c => negb (isna c)) col.

Definition fillna (col : list cell) (v : cell) : list cell :=
  map (fun c => if isna c then v else c) col.

Definition seen (c : cell) (l : list cell) : bool := existsb (same_key c) l.

(** [Series.unique()]: the distinct values in order of first appearance. *)
Fixpoint unique_from (acc col : list cell) : list cell :=
  match col with
  | [] => []
  | c :: col' =>
      if seen c acc then unique_from acc col'
      else c :: unique_from (c :: acc) col'
  end.

Definition unique (col : list cell) : list cell := unique_from [] col.

(** The numbers of a numeric column, [None] for a missing one.  A string
    cell makes the column non-numeric: arithmetic on it is reported as
    [TypeError]. *)
Fixpoint as_float (col : list cell) : result (list (option Q)) :=
  match col with
  | [] => Ok []
  | Str _ :: _ => Raise TypeError
  | NaN :: col' => xs ← as_float col'; mret (None :: xs)
  | Num q :: col' => xs ← as_float col'; mret (Some q :: xs)
  end.

(** Sum that skips missing values, in exact arithmetic; the empty sum is
    zero.  [float_nansum] below is the same sum with the rounding of
    float64. *)
Fixpoint nansum (xs : list (option Q)) : Q :=
  match xs with
  | [] => 0
  | None :: xs' => nansum xs'
  | Some q :: xs' => q + nansum xs'
  end.

Definition count (xs : list (option Q)) : nat :=
  length (List.filter (fun x => match x with Some _ => true | None => false end) xs).

(** [Series.sum()]. *)
Definition series_sum (col : list cell) : result Q :=
  xs ← as_float col; mret (nansum xs).

(** [Series.mean()], in exact arithmetic: [None] stands for the float
    not-a-number, the mean of no value at all. *)
Definition series_mean (col : list cell) : result (option Q) :=
  xs ← as_float col;
  mret (match count xs with
        | O => None
        | S n => Some (nansum xs / inject_Z (Z.of_nat (S n)))%Q
        end).

(** Nearest integer, ties to the even one. *)
Definition round_half_even (x : Q) : Z :=
  let f := Qfloor x in
  match (x - inject_Z f ?= 1 # 2)%Q with
  | Lt => f
  | Gt => (f + 1)%Z
  | Eq => if Z.even f then f else (f + 1)%Z
  end.

(** [round(x, 2)] on the exact value (the builtin rounds the float64, so
    it can differ on a decimal tie such as 0.575); not-a-number rounds to
    itself. *)
Definition py_round2 (x : option Q) : option Q :=
  match x with
  | None => None
  | Some q => Some (inject_Z (round_half_even (q * 100)) / 100)%Q
  end.

(** Order of group keys: numbers before strings, missing keys last. *)
Definition key_leb (a b : cell) : bool :=
  match a, b with
  | Num p, Num q => Qle_bool p q
  | Num _, _ => true
  | Str _, Num _ => false
  | Str s, Str t => String.leb s t
  | Str _, NaN => true
  | NaN, NaN => true
  | NaN, _ => false
  end.

Fixpoint insert_key (k : cell) (ks : list cell) : list cell :=
  match ks with
  | [] => [k]
  | k' :: ks' => if key_leb k k' then k :: ks else k' :: insert_key k ks'
  end.

Definition sort_keys (ks : list cell) : list cell :=
  foldr insert_key [] ks.

(** [df.groupby(keys)[label].sum()]: one group per distinct non-missing
    key, keys sorted, each with the sum of the values of its rows. *)
Definition groupby_keys (keys : list cell) : list cell :=
  sort_keys (unique (dropna keys)).

Definition group_sum (keys : list cell) (xs : list (option Q)) (k : cell) : Q :=
  nansum (select (map (same_key k) keys) xs).


Definition groupby_sum (keys vals : list cell) : result (list (cell * Q)) :=
  xs ← as_float vals;
  mret (map (fun k => (k, group_sum keys xs k)) (groupby_keys keys)).

(** Sum of the totals of all groups. *)
Definition sum_groups (g : list (cell * Q)) : Q :=
  foldr (fun p acc => snd p + acc)%Q 0%Q g.

(** ** The metrics of [main] (lines 95-107, 131, 152) *)

Definition unique_colors (filtered_df : DataFrame) : result nat :=
  col ← get_col filtered_df "Color";
  mret (length (unique (dropna col))).

Definition avg_unit_price (filtered_df : DataFrame) : result (option Q) :=
  col ← get_col filtered_df "Unit Price";
  m ← series_mean col;
  mret (py_round2 m).

Definition unique_sizes (filtered_df : DataFrame) : result nat :=
  col ← get_col filtered_df "Size";
  mret (length (unique (dropna col))).

Definition total_revenue (filtered_df : DataFrame) : result Q :=
  col ← get_col filtered_df "Unit Price";
  series_sum col.

Definition size_sales (filtered_df : DataFrame) : result (list (cell * Q)) :=
  size ← get_col filtered_df "Size";
  price ← get_col filtered_df "Unit Price";
  groupby_sum (fillna size (Str "Sin Talla")) price.

Definition brand_sales (filtered_df : DataFrame) : result (list (cell * Q)) :=
  brand ← get_col filtered_df "Brand";
  price ← get_col filtered_df "Unit Price";
  groupby_sum (fillna brand (Str "Sin Marca")) price.

(** The four metrics in the order [main] computes them. *)
Record Summary : Type := mkSummary {
  uniqueColors : nat;
  avgUnitPrice : option Q;
  uniqueSizes : nat;
  totalRevenue : Q
}.

Definition aggregate (filtered_df : DataFrame) : result Summary :=
  c ← unique_colors filtered_df;
  a ← avg_unit_price filtered_df;
  s ← unique_sizes filtered_df;
  t ← total_revenue filtered_df;
  mret {| uniqueColors := c; avgUnitPrice := a; uniqueSizes := s;
          totalRevenue := t |}.

(** ** The sums in float64 (lines 107, 131, 152)

    pandas holds the unit prices as float64 and rounds every addition.
    [Series.sum] is NumPy's pairwise sum over the column with the missing
    values set to zero; [groupby(...).sum] adds the values of a group, in
    row order, with Kahan's compensated summation. *)















(** ** Frames as objects

    [filter_data] receives a reference to a frame, and [copy] and [df[mask]]
    build new frames.  The store maps an object identity to the frame it
    holds; a program threads the store and may raise. *)

Definition prog (A : Type) : Type :=
  gmap nat DataFrame -> result A * gmap nat DataFrame.

Definition ret_prog {A} (a : A) : prog A := fun h => (Ok a, h).

Definition bind_prog {A B} (m : prog A) (f : A -> prog B) : prog B :=
  fun h =>
    match m h with
    | (Ok a, h') => f a h'
    | (Raise e, h') => (Raise e, h')
    end.

Notation "'let*' x '<~' m 'in' k" := (bind_prog m (fun x => k))
  (at level 10, x name, m at level 100, k at level 200).

Definition lift {A} (r : result A) : prog A := fun h => (r, h).

(** A new object holding [v]. *)
Definition new_frame (v : DataFrame) : prog nat := fun h =>
  let l := fresh (dom h) in (Ok l, <[l := v]> h).

Definition deref (l : nat) : prog DataFrame := fun h =>
  match h !! l with
  | Some v => (Ok v, h)
  | None => (Raise ReferenceError, h)
  end.

Definition obj_copy (l : nat) : prog nat :=
  let* v <~ deref l in new_frame (copy v).

Definition obj_get_col (l : nat) (label : string) : prog (list cell) :=
  let* v <~ deref l in lift (get_col v label).

Definition obj_boolean_index (l : nat) (mask : list bool) : prog nat :=
  let* v <~ deref l in new_frame (boolean_index v mask).

(** [filter_data] on references: the local [filtered_df] is rebound to a
    new object at each step, and no statement writes to an existing one. *)
Definition filter_data_obj (df : nat) (selected_state selected_year : pyval)
    : prog nat :=
  let* filtered_df <~ obj_copy df in
  let* filtered_df <~
    (if py_ne selected_state All then
       let* col <~ obj_get_col filtered_df "State Province" in
       obj_boolean_index filtered_df (eq_mask col selected_state)
     else ret_prog filtered_df) in
  let* filtered_df <~
    (if py_ne selected_year All then
       let* col <~ obj_get_col filtered_df "Calendar Year" in
       let* y <~ lift (py_int selected_year) in
       obj_boolean_index filtered_df (eq_mask col (PyInt y))
     else ret_prog filtered_df) in
  ret_prog filtered_df.

(** ** The select boxes of [main] and its call of [filter_data]
       (lines 79-88) *)

Definition notna (c : cell) : bool := negb (isna c).

Definition is_str (c : cell) : bool :=
  match c with Str _ => true | _ => false end.

Definition is_num (c : cell) : bool :=
  match c with Num _ => true | _ => false end.

(** [sorted(l)] on present values: strings sort among themselves and
    numbers among themselves; comparing a string with a number raises
    [TypeError]. *)
Definition py_sorted (l : list cell) : result (list cell) :=
  if existsb is_str l && existsb is_num l then Raise TypeError
  else Ok (sort_keys l).

(** The options of the state select box (line 79); a [Str] cell is the
    Python string it holds. *)
Definition state_options (df : DataFrame) : result (list cell) :=
  col ← get_col df "State Province";
  xs ← py_sorted (List.filter notna (unique col));
  mret (Str "Todos" :: xs).

(** [int(x)] on a value of a column: a float is truncated towards zero, a
    string is parsed. *)
Definition cell_int (c : cell) : result Z :=
  match c with
  | Num q => Ok (Z.quot (Qnum q) (Zpos (Qden q)))
  | Str s =>
      match parse_int s with
      | Some z => Ok z
      | None => Raise ValueError
      end
  | NaN => Raise ValueError
  end.

(** A list comprehension whose element expression may raise. *)
Fixpoint mapM {A B} (f : A -> result B) (l : list A) : result (list B) :=
  match l with
  | [] => Ok []
  | x :: l' => y ← f x; ys ← mapM f l'; mret (y :: ys)
  end.

Fixpoint insert_Z (z : Z) (l : list Z) : list Z :=
  match l with
  | [] => [z]
  | y :: l' => if (z <=? y)%Z then z :: l else y :: insert_Z z l'
  end.

Definition sort_Z (l : list Z) : list Z := foldr insert_Z [] l.

(** The options of the year select box (line 80). *)
Definition year_options (df : DataFrame) : result (list pyval) :=
  col ← get_col df "Calendar Year";
  ys ← mapM cell_int (List.filter notna (unique col));
  mret (PyStr "Todos" :: map PyInt (sort_Z ys)).

(** [x if x != 'Todos' else 'All'] (lines 87-88). *)
Definition filter_arg (selected : pyval) : pyval :=
  if py_ne selected (PyStr "Todos") then selected else All.

(** The call of [filter_data] in [main]. *)
Definition main_filter (df : DataFrame) (selected_state selected_year : pyval)
    : result DataFrame :=
  filter_data df (filter_arg selected_state) (filter_arg selected_year).

(** ** Revenue by state (lines 49-52, 115-116) *)

Definition state_abbreviations : gmap string string :=
  list_to_map
    [ ("Alaska", "AK"); ("California", "CA"); ("Hawaii", "HI");
      ("Nevada", "NV"); ("Oregon", "OR"); ("Washington", "WA") ].

(** [Series.map(dict)]: a value that is no key of the dict maps to a
    missing cell. *)
Definition map_dict (d : gmap string string) (c : cell) : cell :=
  match c with
  | Str s =>
      match d !! s with
      | Some a => Str a
      | None => NaN
      end
  | _ => NaN
  end.

(** One row per state: the state, its revenue and its abbreviation.
    [groupby] leaves out the rows whose state is missing. *)
Definition state_revenue (filtered_df : DataFrame)
    : result (list (cell * Q * cell)) :=
  state ← get_col filtered_df "State Province";
  price ← get_col filtered_df "Unit Price";
  g ← groupby_sum state price;
  mret (map (fun p => (fst p, snd p, map_dict state_abbreviations (fst p))) g).

(** A frame is rectangular when every row has one cell per column. *)
Definition rectangular (df : DataFrame) : bool :=
  forallb (fun r => length r =? length (columns df))%nat (rows df).

(** What a merge appends of a right row, or of the right labels: all of
    it, or all but the key when both frames name the key alike. *)
Definition right_part {A} (on : bool) (ri : nat) (l : list A) : list A :=
  if on then delete ri l else l.

(** The six files of the data directory hold these six tables. *)
Definition holds_tables (fs : gmap string DataFrame)
    (factsale dimcustomer dimcity dimdate dimemployee dimstockitem : DataFrame)
    : Prop :=
  fs !! "Data/FactSale.csv" = Some factsale /\
  fs !! "Data/DimCostumer.csv" = Some dimcustomer /\
  fs !! "Data/DimCity.csv" = Some dimcity /\
  fs !! "Data/DimDate.csv" = Some dimdate /\
  fs !! "Data/DimEmployee.csv" = Some dimemployee /\
  fs !! "Data/DimStockItem.csv" = Some dimstockitem.

(** ** A small data set

    Three sale lines over five small dimension tables.  The second line
    names a city and a date the dimensions do not have; one stock item
    has neither size nor brand.  [Lineage Key] occurs in several tables
    and exercises the suffixes. *)

Definition sample_factsale : DataFrame :=
  {| columns := ["Sale Key"; "Customer Key"; "City Key"; "Salesperson Key";
                 "Stock Item Key"; "Invoice Date Key"; "Unit Price";
                 "Tax Amount"; "Lineage Key"];
     rows := [ [Num 1; Num 10; Num 100; Num 7; Num 501; Str "2013-01-01";
                Num 10; Num (3 # 2); Num 11];
               [Num 2; Num 11; Num 999; Num 7; Num 502; Str "2014-05-05";
                Num 20; Num 3; Num 11];
               [Num 3; Num 10; Num 101; Num 8; Num 501; Str "2013-01-01";
                Num (5 # 2); Num (1 # 4); Num 11] ] |}.

Definition sample_dimcustomer : DataFrame :=
  {| columns := ["Customer Key"; "Customer"; "Lineage Key"];
     rows := [ [Num 10; Str "Tailspin Toys"; Num 2];
               [Num 11; Str "Wingtip Toys"; Num 2] ] |}.

Definition sample_dimcity : DataFrame :=
  {| columns := ["City Key"; "City"; "State Province"; "Lineage Key"];
     rows := [ [Num 100; Str "Fresno"; Str "California"; Num 3];
               [Num 101; Str "Reno"; Str "Nevada"; Num 3] ] |}.

Definition sample_dimemployee : DataFrame :=
  {| columns := ["Employee Key"; "Employee"];
     rows := [ [Num 7; Str "Kayla"]; [Num 8; Str "Hudson"] ] |}.

Definition sample_dimstockitem : DataFrame :=
  {| columns := ["Stock Item Key"; "Color"; "Size"; "Brand"];
     rows := [ [Num 501; Str "Blue"; Str "L"; Str "Northwind"];
               [Num 502; Str "Red"; NaN; NaN] ] |}.

Definition sample_dimdate : DataFrame :=
  {| columns := ["Date"; "Calendar Year"];
     rows := [ [Str "2013-01-01"; Num 2013] ] |}.

Definition sample_fs : gmap string DataFrame :=
  list_to_map
    [ ("Data/FactSale.csv", sample_factsale);
      ("Data/DimCostumer.csv", sample_dimcustomer);
      ("Data/DimCity.csv", sample_dimcity);
      ("Data/DimDate.csv", sample_dimdate);
      ("Data/DimEmployee.csv", sample_dimemployee);
      ("Data/DimStockItem.csv", sample_dimstockitem) ].

(** The integrated view of the sample, as [load_data] builds it. *)
Definition sample_view : DataFrame :=
  {| columns :=
       ["Sale Key"; "Customer Key"; "City Key"; "Salesperson Key";
        "Stock Item Key"; "Invoice Date Key"; "Unit Price"; "Tax Amount";
        "Lineage Key"; "Customer"; "Lineage Key_customer"; "City";
        "State Province"; "Lineage Key_city"; "Employee Key"; "Employee";
        "Color"; "Size"; "Brand"; "Date"; "Calendar Year"];
     rows :=
       [ [Num 1; Num 10; Num 100; Num 7; Num 501; Str "2013-01-01"; Num 10;
          Num (3 # 2); Num 11; Str "Tailspin Toys"; Num 2; Str "Fresno";
          Str "California"; Num 3; Num 7; Str "Kayla"; Str "Blue"; Str "L";
          Str "Northwind"; Str "2013-01-01"; Num 2013];
         [Num 2; Num 11; Num 999; Num 7; Num 502; Str "2014-05-05"; Num 20;
          Num 3; Num 11; Str "Wingtip Toys"; Num 2; NaN; NaN; NaN; Num 7;
          Str "Kayla"; Str "Red"; NaN; NaN; NaN; NaN];
         [Num 3; Num 10; Num 101; Num 8; Num 501; Str "2013-01-01";
          Num (5 # 2); Num (1 # 4); Num 11; Str "Tailspin Toys"; Num 2;
          Str "Reno"; Str "Nevada"; Num 3; Num 8; Str "Hudson"; Str "Blue";
          Str "L"; Str "Northwind"; Str "2013-01-01"; Num 2013] ] |}.

(** The sample fact table merged with the sample dates alone. *)
Definition sample_fact_date : DataFrame :=
  {| columns := columns sample_factsale ++ columns sample_dimdate;
     rows := zip_with app (rows sample_factsale)
               [ [Str "2013-01-01"; Num 2013]; [NaN; NaN];
                 [Str "2013-01-01"; Num 2013] ] |}.


(** A store holding the sample view, and a run of [filter_data] on it. *)
Definition sample_store : gmap nat DataFrame := {[ 0%nat := sample_view ]}.

Definition sample_run : result nat * gmap nat DataFrame :=
  filter_data_obj 0 (PyStr "Nevada") (PyInt 2013) sample_store.

(** ** Specification predicates *)

(** The test a row passes under a concrete state selection. *)
Definition state_ok (cols : list string) (selected_state : pyval)
    (r : list cell) : bool :=
  if py_ne selected_state All then
    match index_of "State Province" cols with
    | Some i => cell_eq (cell_at i r) selected_state
    | None => false
    end
  else true.

(** The test a row passes under a concrete year selection. *)
Definition year_ok (cols : list string) (selected_year : pyval)
    (r : list cell) : bool :=
  if py_ne selected_year All then
    match index_of "Calendar Year" cols, py_int selected_year with
    | Some j, Ok n => cell_eq (cell_at j r) (PyInt n)
    | _, _ => false
    end
  else true.

Definition has_col (df : DataFrame) (label : string) : bool :=
  match index_of label (columns df) with Some _ => true | None => false end.

(** The rows [filter_data] keeps from [df]. *)
Definition kept_rows (df : DataFrame) (s y : pyval) : list (list cell) :=
  List.filter (year_ok (columns df) y)
    (List.filter (state_ok (columns df) s) (rows df)).

(** [Series.is_unique]: no two cells of the column are the same key. *)
Fixpoint is_unique (col : list cell) : bool :=
  match col with
  | [] => true
  | c :: col' => negb (seen c col') && is_unique col'
  end.

(** The key column of a dimension table has no repeated value. *)
Definition unique_key (df : DataFrame) (label : string) : bool :=
  match get_col df label with
  | Ok col => is_unique col
  | Raise _ => true
  end.

(** No dimension table repeats a value of its key column. *)
Definition unique_dimension_keys
    (dimcustomer dimcity dimdate dimemployee dimstockitem : DataFrame) : bool :=
  unique_key dimcustomer "Customer Key" && unique_key dimcity "City Key"
  && unique_key dimemployee "Employee Key"
  && unique_key dimstockitem "Stock Item Key" && unique_key dimdate "Date".


(** The year column holds whole numbers (or nothing) only. *)
Definition whole (c : cell) : bool :=
  match c with
  | NaN => true
  | Num q => Qeq_bool q (inject_Z (Z.quot (Qnum q) (Zpos (Qden q))))
  | Str _ => false
  end.

Definition whole_years (df : DataFrame) : bool :=
  match get_col df "Calendar Year" with
  | Ok col => forallb whole col
  | Raise _ => false
  end.



Definition value (x : option Q) : Q :=
  match x with Some q => q | None => 0%Q end.

Ltac unfold_result :=
  unfold mbind, result_bind, mret, result_ret in *; simpl in *.

(** * Properties *)

(** ** Basic facts on masks and cells *)

Lemma copy_id df : copy df = df.
Proof. by destruct df. Qed.

Lemma select_map_filter {A} (f : A -> bool) (l : list A) :
  select (map f l) l = List.filter f l.
Proof.
  induction l as [|x l IH]; simpl; [done|].
  rewrite IH. by destruct (f x).
Qed.

Lemma eq_mask_select (i : nat) (v : pyval) (l : list (list cell)) :
  select (eq_mask (map (cell_at i) l) v) l
  = List.filter (fun r => cell_eq (cell_at i r) v) l.
Proof.
  unfold eq_mask. rewrite map_map.
  apply (select_map_filter (fun r => cell_eq (cell_at i r) v)).
Qed.

Lemma filter_sublist {A} (f : A -> bool) (l : list A) :
  List.filter f l `sublist_of` l.
Proof.
  induction l as [|x l IH]; simpl; [constructor|].
  destruct (f x); by constructor.
Qed.

Lemma filter_none {A} (f : A -> bool) (l : list A) :
  (forall x, In x l -> f x = false) -> List.filter f l = [].
Proof.
  induction l as [|x l IH]; simpl; intros H; [done|].
  rewrite (H x) by auto. apply IH. auto.
Qed.


Lemma cell_eq_str c s : cell_eq c (PyStr s) = true <-> c = Str s.
Proof.
  destruct c as [|t|q]; simpl; try (split; [done | congruence]).
  rewrite String.eqb_eq. split; congruence.
Qed.


(** ** The result of [filter_data], row by row *)

Lemma get_col_index df label :
  get_col df label =
    match index_of label (columns df) with
    | Some i => Ok (map (cell_at i) (rows df))
    | None => Raise (KeyError label)
    end.
Proof. reflexivity. Qed.

Lemma boolean_index_eq_mask df i v :
  boolean_index df (eq_mask (map (cell_at i) (rows df)) v)
  = {| columns := columns df;
       rows := List.filter (fun r => cell_eq (cell_at i r) v) (rows df) |}.
Proof. unfold boolean_index. by rewrite eq_mask_select. Qed.

Lemma filter_true {A} (l : list A) : List.filter (fun _ => true) l = l.
Proof. induction l; simpl; congruence. Qed.

(** [filter_data] in closed form: which exception it raises, in the order
    the source evaluates, and the frame it returns otherwise. *)
Lemma filter_data_unfold df s y :
  filter_data df s y =
    if py_ne s All && negb (has_col df "State Province")
    then Raise (KeyError "State Province")
    else if py_ne y All then
      if has_col df "Calendar Year" then
        match py_int y with
        | Ok _ => Ok {| columns := columns df; rows := kept_rows df s y |}
        | Raise e => Raise e
        end
      else Raise (KeyError "Calendar Year")
    else Ok {| columns := columns df; rows := kept_rows df s y |}.
Proof.
  unfold filter_data, kept_rows, state_ok, year_ok, has_col.
  rewrite copy_id.
  destruct (py_ne s All).
  - rewrite get_col_index.
    destruct (index_of "State Province" (columns df)) as [i|];
      unfold_result; [|done].
    rewrite boolean_index_eq_mask.
    destruct (py_ne y All).
    + set (w := {| columns := columns df; rows := _ |}).
      rewrite get_col_index. change (columns w) with (columns df).
      destruct (index_of "Calendar Year" (columns df)) as [j|]; [|done].
      destruct (py_int y) as [n|e]; [|done].
      by rewrite boolean_index_eq_mask.
    + by rewrite filter_true.
  - unfold_result. destruct (py_ne y All).
    + rewrite get_col_index.
      destruct (index_of "Calendar Year" (columns df)) as [j|]; [|done].
      destruct (py_int y) as [n|e]; [|done].
      by rewrite boolean_index_eq_mask, filter_true.
    + rewrite !filter_true. by destruct df.
Qed.

(** A successful call keeps the columns and exactly the rows that pass
    both tests, in their order. *)
Lemma filter_data_rows df s y v :
  filter_data df s y = Ok v ->
  columns v = columns df /\ rows v = kept_rows df s y.
Proof.
  rewrite filter_data_unfold.
  destruct (py_ne s All && negb (has_col df "State Province")); [done|].
  destruct (py_ne y All); [|by intros [= <-]].
  destruct (has_col df "Calendar Year"); [|done].
  destruct (py_int y); [|done]. by intros [= <-].
Qed.

Lemma py_ne_All : py_ne All All = false.
Proof. reflexivity. Qed.

Lemma kept_rows_year_All df s :
  kept_rows df s All = List.filter (state_ok (columns df) s) (rows df).
Proof. unfold kept_rows, year_ok. by rewrite py_ne_All, filter_true. Qed.

Lemma kept_rows_sublist df s y :
  kept_rows df s y `sublist_of` kept_rows df s All.
Proof. rewrite kept_rows_year_All. apply filter_sublist. Qed.

Lemma In_kept_rows df s y r :
  In r (kept_rows df s y) <->
  In r (rows df) /\ state_ok (columns df) s r = true
                /\ year_ok (columns df) y r = true.
Proof. unfold kept_rows. rewrite !filter_In. tauto. Qed.

(** ** Claims on [filter_data] *)

(** C4. With the sentinel ['All'] for both the state and the year,
    [filter_data] returns a frame equal to the view it was given. *)
Theorem filter_all_all_is_identity (df : DataFrame) :
  filter_data df All All = Ok df.
Proof.
  rewrite filter_data_unfold; simpl.
  rewrite kept_rows_year_All. unfold state_ok; rewrite py_ne_All.
  rewrite filter_true. by destruct df.
Qed.

(** C5. Whenever [filter_data df state year] returns a frame, so does
    [filter_data df state 'All']; the former's rows are a sublist of the
    latter's, whose rows are a sublist of the rows of [df].  All three
    frames have the same columns, and every row is kept as it is. *)
Theorem filter_subset_chain (df : DataFrame) (state year : pyval)
    (v : DataFrame) :
  filter_data df state year = Ok v ->
  exists w,
    filter_data df state All = Ok w /\
    columns v = columns w /\ columns w = columns df /\
    rows v `sublist_of` rows w /\ rows w `sublist_of` rows df.
Proof.
  intros Hv. destruct (filter_data_rows _ _ _ _ Hv) as [Hc Hr].
  exists {| columns := columns df; rows := kept_rows df state All |}.
  split.
  - revert Hv. rewrite !filter_data_unfold.
    by destruct (py_ne state All && negb (has_col df "State Province")).
  - simpl. rewrite Hr. repeat split; [done | apply kept_rows_sublist |].
    rewrite kept_rows_year_All. apply filter_sublist.
Qed.

Lemma filter_subset_chain_witness :
  exists w,
    filter_data sample_view (PyStr "California") All = Ok w /\
    columns (boolean_index sample_view [true; false; false]) = columns w /\
    columns w = columns sample_view /\
    rows (boolean_index sample_view [true; false; false]) `sublist_of` rows w /\
    rows w `sublist_of` rows sample_view.
Proof.
  apply (filter_subset_chain sample_view (PyStr "California") (PyInt 2013)).
  vm_compute. reflexivity.
Defined.



Lemma filter_data_with_py_int df state year :
  filter_data_with py_int df state year = filter_data df state year.
Proof. reflexivity. Qed.

(** C8. A year selection other than ['All'] on which [int()] raises makes
    [filter_data] raise: no frame is returned, neither the full view nor
    the rows filtered by state so far.  On a view that has the columns the
    filter reads, the exception is the one [int()] raised ([ValueError]
    for a string that is no number).  This holds for every [int], hence
    for the builtin with all it accepts. *)
Theorem non_numeric_year_raises (int : pyval -> result Z) (df : DataFrame)
    (state year : pyval) (e : exn) :
  py_ne year All = true ->
  int year = Raise e ->
  (exists e', filter_data_with int df state year = Raise e') /\
  ((py_ne state All = true -> has_col df "State Province" = true) ->
   has_col df "Calendar Year" = true ->
   filter_data_with int df state year = Raise e).
Proof.
  intros Hy Hint. unfold filter_data_with, has_col.
  rewrite copy_id, Hy.
  destruct (py_ne state All).
  - rewrite get_col_index.
    destruct (index_of "State Province" (columns df)) as [i|];
      unfold mbind, result_bind, mret, result_ret.
    + rewrite get_col_index. cbn [boolean_index columns].
      destruct (index_of "Calendar Year" (columns df)) as [j|].
      * rewrite Hint. eauto.
      * split; [eauto|]. by intros _ ?.
    + split; [eauto|]. intros H. by specialize (H eq_refl).
  - unfold mbind, result_bind, mret, result_ret. rewrite get_col_index.
    destruct (index_of "Calendar Year" (columns df)) as [j|].
    + rewrite Hint. eauto.
    + split; [eauto|]. by intros _ ?.
Qed.

Lemma non_numeric_year_raises_witness :
  (exists e', filter_data_with py_int sample_view (PyStr "Nevada")
                (PyStr "20x3") = Raise e') /\
  ((py_ne (PyStr "Nevada") All = true ->
    has_col sample_view "State Province" = true) ->
   has_col sample_view "Calendar Year" = true ->
   filter_data_with py_int sample_view (PyStr "Nevada") (PyStr "20x3")
   = Raise ValueError).
Proof.
  apply (non_numeric_year_raises py_int sample_view (PyStr "Nevada")
           (PyStr "20x3") ValueError); reflexivity.
Defined.

(** C10. On a view with a state column, a state selection that is a string
    other than ['All'] and occurs in no row of that column yields the
    empty frame: with year ['All'], with every integer year a float64
    holds exactly (when the view has a year column), and whenever the call
    returns at all.  For no string does the state step raise: with year
    ['All'] the call returns a frame for every string. *)
Theorem unknown_state_gives_empty (df : DataFrame) (s : string) (i : nat) :
  s <> "All" ->
  index_of "State Province" (columns df) = Some i ->
  (forall r, In r (rows df) -> cell_at i r <> Str s) ->
  filter_data df (PyStr s) All = Ok {| columns := columns df; rows := [] |} /\
  (forall n, (- 2 ^ 53 <= n <= 2 ^ 53)%Z ->
     has_col df "Calendar Year" = true ->
     filter_data df (PyStr s) (PyInt n)
     = Ok {| columns := columns df; rows := [] |}) /\
  (forall year v, filter_data df (PyStr s) year = Ok v -> rows v = []) /\
  (forall t, exists w, filter_data df (PyStr t) All = Ok w).
Proof.
  intros Hs Hi Hno.
  assert (Hne : py_ne (PyStr s) All = true).
  { simpl. by apply negb_true_iff, String.eqb_neq. }
  assert (Hcol : has_col df "State Province" = true).
  { unfold has_col. by rewrite Hi. }
  assert (Hst : List.filter (state_ok (columns df) (PyStr s)) (rows df) = []).
  { apply filter_none. intros r Hr. unfold state_ok. rewrite Hne, Hi.
    apply not_true_is_false. intros Heq%cell_eq_str. by apply (Hno r). }
  assert (Hk : forall y, kept_rows df (PyStr s) y = []).
  { intros y. unfold kept_rows. by rewrite Hst. }
  repeat split.
  - by rewrite filter_data_unfold, Hcol, andb_false_r, py_ne_All, Hk.
  - intros n _ Hy.
    by rewrite filter_data_unfold, Hcol, andb_false_r, Hy, Hk.
  - intros year v [_ ->]%filter_data_rows. apply Hk.
  - intros t. rewrite filter_data_unfold, Hcol, andb_false_r, py_ne_All.
    eauto.
Qed.

Lemma unknown_state_gives_empty_witness :
  filter_data sample_view (PyStr "Texas") All
  = Ok {| columns := columns sample_view; rows := [] |} /\
  (forall n, (- 2 ^ 53 <= n <= 2 ^ 53)%Z ->
     has_col sample_view "Calendar Year" = true ->
     filter_data sample_view (PyStr "Texas") (PyInt n)
     = Ok {| columns := columns sample_view; rows := [] |}) /\
  (forall year v, filter_data sample_view (PyStr "Texas") year = Ok v ->
     rows v = []) /\
  (forall t, exists w, filter_data sample_view (PyStr t) All = Ok w).
Proof.
  apply (unknown_state_gives_empty sample_view "Texas" 12).
  - discriminate.
  - reflexivity.
  - simpl. intros r [<-|[<-|[<-|[]]]]; discriminate.
Defined.

(** ** [filter_data] on objects *)

Section objects.
Variable h : gmap nat DataFrame.
Variables (l : nat) (v : DataFrame).
Hypothesis Hl : h !! l = Some v.

Lemma fresh_unused : h !! fresh (dom h) = None.
Proof. apply not_elem_of_dom, is_fresh. Qed.

Lemma obj_copy_spec :
  obj_copy l h = (Ok (fresh (dom h)), <[fresh (dom h) := v]> h).
Proof using Hl. unfold obj_copy, bind_prog, deref. by rewrite Hl, copy_id. Qed.

Lemma obj_get_col_spec label :
  obj_get_col l label h = (get_col v label, h).
Proof using Hl. unfold obj_get_col, bind_prog, deref, lift. by rewrite Hl. Qed.

Lemma obj_boolean_index_spec mask :
  obj_boolean_index l mask h
  = (Ok (fresh (dom h)), <[fresh (dom h) := boolean_index v mask]> h).
Proof using Hl. unfold obj_boolean_index, bind_prog, deref. by rewrite Hl. Qed.

End objects.

(** One optional filtering step of [filter_data], on values and on
    objects: the object version allocates at most one frame, writes to no
    existing object and computes the same frame.  [conv] is the coercion
    of the selection ([int()] for the year, none for the state). *)
Lemma filter_step_obj {A} (h : gmap nat DataFrame) (l : nat) (v : DataFrame)
    (label : string) (test : bool) (conv : result A) (mk : A -> pyval) :
  h !! l = Some v ->
  let step_val : result DataFrame :=
    if test then
      col ← get_col v label; a ← conv;
      mret (boolean_index v (eq_mask col (mk a)))
    else mret v in
  let step_obj : prog nat :=
    if test then
      let* col <~ obj_get_col l label in
      let* a <~ lift conv in
      obj_boolean_index l (eq_mask col (mk a))
    else ret_prog l in
  exists r h', step_obj h = (r, h') /\ h ⊆ h' /\
    match step_val, r with
    | Ok w, Ok l' => h' !! l' = Some w /\ (l' = l \/ h !! l' = None)
    | Raise e, Raise e' => e = e'
    | _, _ => False
    end.
Proof.
  intros Hl; simpl. destruct test.
  - unfold bind_prog. rewrite (obj_get_col_spec h l v Hl).
    destruct (get_col v label) as [col|e]; unfold_result;
      [|by exists (Raise e), h].
    unfold lift. destruct conv as [a|e]; [|by exists (Raise e), h].
    rewrite (obj_boolean_index_spec h l v Hl).
    do 2 eexists; split; [done|]. split.
    + apply insert_subseteq, fresh_unused.
    + split; [apply lookup_insert_eq | right; apply fresh_unused].
  - exists (Ok l), h. unfold_result. auto.
Qed.

(** C9. [filter_data] leaves every frame that existed before the call as
    it was, the view it is given among them, whether it returns or raises.
    The frame it returns is a new object, distinct from the input, and
    holds the value [filter_data] computes on values. *)
Theorem filter_data_leaves_input_unchanged (h h' : gmap nat DataFrame)
    (l : nat) (df : DataFrame) (state year : pyval) (r : result nat) :
  h !! l = Some df ->
  filter_data_obj l state year h = (r, h') ->
  h ⊆ h' /\ h' !! l = Some df /\
  match r with
  | Ok l' =>
      l' <> l /\ h !! l' = None /\
      exists w, h' !! l' = Some w /\ filter_data df state year = Ok w
  | Raise e => filter_data df state year = Raise e
  end.
Proof.
  intros Hl. unfold filter_data_obj, filter_data.
  unfold bind_prog at 1. rewrite (obj_copy_spec h l df Hl), copy_id.
  set (l1 := fresh (dom h)). set (h1 := <[l1 := df]> h).
  assert (H01 : h ⊆ h1) by apply insert_subseteq, fresh_unused.
  assert (Hl1 : h1 !! l1 = Some df) by apply lookup_insert_eq.
  assert (Hne : l1 <> l).
  { intros E. pose proof (fresh_unused h) as F. fold l1 in F. congruence. }
  set (sval := if py_ne state All then
                  col ← get_col df "State Province";
                  mret (boolean_index df (eq_mask col state))
                else mret df).
  set (sobj := if py_ne state All then
                  let* col <~ obj_get_col l1 "State Province" in
                  obj_boolean_index l1 (eq_mask col state)
                else ret_prog l1).
  assert (exists r2 h2, sobj h1 = (r2, h2) /\ h1 ⊆ h2 /\
            match sval, r2 with
            | Ok w, Ok l' => h2 !! l' = Some w /\ (l' = l1 \/ h1 !! l' = None)
            | Raise e, Raise e' => e = e'
            | _, _ => False
            end) as (r2 & h2 & E2 & H12 & S2).
  { exact (filter_step_obj h1 l1 df "State Province" (py_ne state All)
             (Ok tt) (fun _ => state) Hl1). }
  unfold bind_prog at 1. rewrite E2.
  destruct sval as [w|e], r2 as [l2|e2]; try done; unfold_result.
  2:{ intros [= <- <-]. subst e2.
      assert (h ⊆ h2) by (by trans h1).
      repeat split; [done | by eapply lookup_weaken]. }
  destruct S2 as [Hl2 Hfr2].
  destruct (filter_step_obj h2 l2 w "Calendar Year" (py_ne year All)
              (py_int year) PyInt Hl2) as (r3 & h3 & E3 & H23 & S3).
  cbv zeta in E3, S3. unfold bind_prog at 1. rewrite E3.
  assert (H02 : h ⊆ h2) by (by trans h1).
  assert (H03 : h ⊆ h3) by (by trans h2).
  assert (Hfr : h !! l2 = None).
  { destruct Hfr2 as [->|F]; [apply fresh_unused|].
    destruct (h !! l2) eqn:E; [|done].
    by rewrite (lookup_weaken _ _ _ _ E H01) in F. }
  unfold_result.
  match type of S3 with match ?x with _ => _ end =>
    destruct x as [w3|e3] end; destruct r3 as [l3|e3']; try done.
  2:{ intros [= <- <-]. subst e3'.
      repeat split; [done | by eapply lookup_weaken]. }
  unfold ret_prog. intros [= <- <-]. destruct S3 as [Hl3 Hfr3].
  split; [done|]. split; [by eapply lookup_weaken|].
  assert (Hfr' : h !! l3 = None).
  { destruct Hfr3 as [->|F]; [done|].
    destruct (h !! l3) eqn:E; [|done].
    by rewrite (lookup_weaken _ _ _ _ E H02) in F. }
  split; [congruence|]. split; [done|]. eauto.
Qed.

Lemma filter_data_leaves_input_unchanged_witness :
  sample_store ⊆ snd sample_run /\
  snd sample_run !! 0%nat = Some sample_view /\
  match fst sample_run with
  | Ok l' =>
      l' <> 0%nat /\ sample_store !! l' = None /\
      exists w, snd sample_run !! l' = Some w /\
                filter_data sample_view (PyStr "Nevada") (PyInt 2013) = Ok w
  | Raise e =>
      filter_data sample_view (PyStr "Nevada") (PyInt 2013) = Raise e
  end.
Proof.
  apply (filter_data_leaves_input_unchanged sample_store (snd sample_run) 0
           sample_view (PyStr "Nevada") (PyInt 2013) (fst sample_run)).
  - reflexivity.
  - apply surjective_pairing.
Defined.

(** ** Left merges keep the rows of the left frame *)

Lemma same_key_refl a : same_key a a = true.
Proof.
  destruct a; simpl; [done | apply String.eqb_refl |].
  apply Qeq_bool_iff. reflexivity.
Qed.

Lemma same_key_sym a b : same_key a b = same_key b a.
Proof.
  destruct a, b; simpl; try done; [apply String.eqb_sym|].
  apply eq_true_iff_eq. rewrite !Qeq_bool_iff. split; by symmetry.
Qed.

Lemma same_key_trans a b c :
  same_key a b = true -> same_key b c = true -> same_key a c = true.
Proof.
  destruct a, b, c; simpl; try done.
  - rewrite !String.eqb_eq. congruence.
  - rewrite !Qeq_bool_iff. intros -> ->. reflexivity.
Qed.

Lemma seen_spec c l :
  seen c l = true <-> exists x, In x l /\ same_key c x = true.
Proof. apply existsb_exists. Qed.

Lemma select_length_le {A} (mask : list bool) (l : list A) :
  length (select mask l) <= length (List.filter id mask).
Proof.
  revert l. induction mask as [|b mask IH]; intros [|x l]; simpl; try lia.
  destruct b; simpl; specialize (IH l); lia.
Qed.

(** A key matches at most one cell of a column without repeated keys. *)
Lemma unique_matches_le_1 (k : cell) (keys : list cell) :
  is_unique keys = true ->
  length (List.filter id (map (same_key k) keys)) <= 1.
Proof.
  induction keys as [|c keys IH]; simpl; [lia|].
  intros [Hc Hu]%andb_true_iff. specialize (IH Hu).
  destruct (same_key k c) eqn:Hk; simpl; [|done].
  enough (List.filter id (map (same_key k) keys) = []) as -> by (simpl; lia).
  apply filter_none. intros b Hb. destruct b; [|done].
  apply in_map_iff in Hb as (x & Hx & Hin).
  apply negb_true_iff, not_true_iff_false in Hc. destruct Hc.
  apply seen_spec. exists x. split; [done|].
  apply same_key_trans with k; [|done]. by rewrite same_key_sym.
Qed.

(** Each left row joins into exactly one row when the right keys are
    unique: the matching row, or the row padded with missing cells. *)
Lemma join_row_length li rkeys rrows width lrow :
  is_unique rkeys = true ->
  length (join_row li rkeys rrows width lrow) = 1%nat.
Proof.
  intros Hu. unfold join_row.
  pose proof (select_length_le (map (same_key (cell_at li lrow)) rkeys) rrows).
  pose proof (unique_matches_le_1 (cell_at li lrow) rkeys Hu).
  destruct (select _ rrows) as [|m ms]; [done|].
  rewrite length_map. simpl in *. lia.
Qed.

Lemma flat_map_length_1 {A B} (f : A -> list B) (l : list A) :
  (forall x, length (f x) = 1%nat) -> length (flat_map f l) = length l.
Proof.
  intros Hf. induction l as [|x l IH]; simpl; [done|].
  rewrite length_app, Hf, IH. done.
Qed.

(** A left merge against a frame with unique keys returns as many rows as
    the left frame has, whatever the keys of the left frame are. *)
Lemma merge_nrows left right left_on right_on suffixes v :
  unique_key right right_on = true ->
  merge left right left_on right_on suffixes = Ok v ->
  nrows v = nrows left.
Proof.
  unfold unique_key, merge. rewrite get_col_index.
  destruct (index_of right_on (columns right)) as [ri|]; [|done].
  destruct (index_of left_on (columns left)) as [li|]; [|done].
  intros Hu. destruct (merge_labels _ _ _) as [labels|]; unfold_result;
    [|done].
  intros [= <-]. unfold nrows; simpl.
  apply flat_map_length_1. intros lrow. by apply join_row_length.
Qed.

Lemma merge_all_nrows factsale dimcustomer dimcity dimdate dimemployee
    dimstockitem v :
  unique_key dimcustomer "Customer Key" = true ->
  unique_key dimcity "City Key" = true ->
  unique_key dimemployee "Employee Key" = true ->
  unique_key dimstockitem "Stock Item Key" = true ->
  unique_key dimdate "Date" = true ->
  merge_all factsale dimcustomer dimcity dimdate dimemployee dimstockitem
  = Ok v ->
  nrows v = nrows factsale.
Proof.
  intros U1 U2 U3 U4 U5. unfold merge_all.
  destruct (merge factsale _ _ _ _) as [m1|] eqn:E1; unfold_result; [|done].
  destruct (merge m1 _ _ _ _) as [m2|] eqn:E2; [|done].
  destruct (merge m2 _ _ _ _) as [m3|] eqn:E3; [|done].
  destruct (merge m3 _ _ _ _) as [m4|] eqn:E4; [|done].
  intros E5.
  rewrite (merge_nrows _ _ _ _ _ _ U5 E5), (merge_nrows _ _ _ _ _ _ U4 E4),
    (merge_nrows _ _ _ _ _ _ U3 E3), (merge_nrows _ _ _ _ _ _ U2 E2).
  exact (merge_nrows _ _ _ _ _ _ U1 E1).
Qed.

(** Whether a merge returns depends on the column labels only. *)
Lemma merge_ok_columns left right left' right' left_on right_on suffixes v :
  columns left' = columns left ->
  columns right' = columns right ->
  merge left right left_on right_on suffixes = Ok v ->
  exists v', merge left' right' left_on right_on suffixes = Ok v' /\
             columns v' = columns v.
Proof.
  intros Hl Hr. unfold merge. rewrite Hl, Hr.
  destruct (index_of right_on (columns right)) as [ri|]; [|done].
  destruct (index_of left_on (columns left)) as [li|]; [|done].
  destruct (merge_labels _ _ _) as [labels|]; unfold_result; [|done].
  intros [= <-]. eauto.
Qed.

Lemma merge_all_ok_columns f c ci d e st f' c' ci' d' e' st' v :
  columns f' = columns f -> columns c' = columns c ->
  columns ci' = columns ci -> columns d' = columns d ->
  columns e' = columns e -> columns st' = columns st ->
  merge_all f c ci d e st = Ok v ->
  exists v', merge_all f' c' ci' d' e' st' = Ok v' /\ columns v' = columns v.
Proof.
  intros Hf Hc Hci Hd He Hst. unfold merge_all.
  destruct (merge f c _ _ _) as [m1|] eqn:E1; unfold_result; [|done].
  destruct (merge m1 ci _ _ _) as [m2|] eqn:E2; [|done].
  destruct (merge m2 e _ _ _) as [m3|] eqn:E3; [|done].
  destruct (merge m3 st _ _ _) as [m4|] eqn:E4; [|done].
  intros E5.
  destruct (merge_ok_columns _ _ f' c' _ _ _ _ Hf Hc E1) as (n1 & -> & H1).
  destruct (merge_ok_columns _ _ n1 ci' _ _ _ _ H1 Hci E2) as (n2 & -> & H2).
  destruct (merge_ok_columns _ _ n2 e' _ _ _ _ H2 He E3) as (n3 & -> & H3).
  destruct (merge_ok_columns _ _ n3 st' _ _ _ _ H3 Hst E4) as (n4 & -> & H4).
  exact (merge_ok_columns _ _ n4 d' _ _ _ _ H4 Hd E5).
Qed.

Lemma load_data_try_paths (fs : gmap string DataFrame) :
  load_data_try fs =
    (factsale ← read_csv fs "Data/FactSale.csv";
     dimcustomer ← read_csv fs "Data/DimCostumer.csv";
     dimcity ← read_csv fs "Data/DimCity.csv";
     dimdate ← read_csv fs "Data/DimDate.csv";
     dimemployee ← read_csv fs "Data/DimEmployee.csv";
     dimstockitem ← read_csv fs "Data/DimStockItem.csv";
     merge_all factsale dimcustomer dimcity dimdate dimemployee dimstockitem).
Proof.
  unfold load_data_try. unfold_result.
  repeat (destruct (read_csv fs _); [|done]).
  by destruct (merge_all _ _ _ _ _ _).
Qed.

Lemma sample_merge_all :
  merge_all sample_factsale sample_dimcustomer sample_dimcity sample_dimdate
    sample_dimemployee sample_dimstockitem = Ok sample_view.
Proof. vm_compute. reflexivity. Qed.

(** [load_data_try] returns a view for all tables under the header rows
    of the sample, whatever their rows are. *)
Lemma load_data_try_returns_on_schema (fs : gmap string DataFrame)
    f c ci d e st :
  fs !! "Data/FactSale.csv" = Some f ->
  fs !! "Data/DimCostumer.csv" = Some c ->
  fs !! "Data/DimCity.csv" = Some ci ->
  fs !! "Data/DimDate.csv" = Some d ->
  fs !! "Data/DimEmployee.csv" = Some e ->
  fs !! "Data/DimStockItem.csv" = Some st ->
  columns f = columns sample_factsale ->
  columns c = columns sample_dimcustomer ->
  columns ci = columns sample_dimcity ->
  columns d = columns sample_dimdate ->
  columns e = columns sample_dimemployee ->
  columns st = columns sample_dimstockitem ->
  exists view, load_data_try fs = Ok view /\
               columns view = columns sample_view.
Proof.
  intros Ff Fc Fci Fd Fe Fst Hf Hc Hci Hd He Hst.
  rewrite load_data_try_paths. unfold read_csv.
  rewrite Ff, Fc, Fci, Fd, Fe, Fst. unfold mbind, result_bind.
  destruct (merge_all_ok_columns _ _ _ _ _ _ f c ci d e st _
              Hf Hc Hci Hd He Hst sample_merge_all) as (v' & -> & Hv).
  eauto.
Qed.

Lemma load_data_cold fs s :
  data_cache s = None ->
  load_data fs s =
    match load_data_try fs with
    | Ok view =>
        (Ok view, {| data_cache := Some view; shown_errors := shown_errors s |})
    | Raise (FileNotFoundError p) =>
        (Raise (FileNotFoundError p), st_error not_found_msg s)
    | Raise e => (Raise e, s)
    end.
Proof.
  intros Hc. unfold load_data, cache_data, load_data_body. rewrite Hc.
  destruct (load_data_try fs) as [view|[]]; done.
Qed.

(** ** Claims on [load_data] *)

(** C1. When the six files hold tables whose dimension key columns have
    no repeated value, the view [load_data] computes and returns has
    exactly as many rows as the fact table. *)
Theorem load_data_row_count (fs : gmap string DataFrame) (s s' : app_state)
    (factsale dimcustomer dimcity dimdate dimemployee dimstockitem
     view : DataFrame) :
  fs !! "Data/FactSale.csv" = Some factsale ->
  fs !! "Data/DimCostumer.csv" = Some dimcustomer ->
  fs !! "Data/DimCity.csv" = Some dimcity ->
  fs !! "Data/DimDate.csv" = Some dimdate ->
  fs !! "Data/DimEmployee.csv" = Some dimemployee ->
  fs !! "Data/DimStockItem.csv" = Some dimstockitem ->
  unique_key dimcustomer "Customer Key" = true ->
  unique_key dimcity "City Key" = true ->
  unique_key dimemployee "Employee Key" = true ->
  unique_key dimstockitem "Stock Item Key" = true ->
  unique_key dimdate "Date" = true ->
  data_cache s = None ->
  load_data fs s = (Ok view, s') ->
  nrows view = nrows factsale.
Proof.
  intros Ff Fc Fci Fd Fe Fst U1 U2 U3 U4 U5 Hcold.
  rewrite (load_data_cold fs s Hcold).
  rewrite load_data_try_paths. unfold read_csv.
  rewrite Ff, Fc, Fci, Fd, Fe, Fst; unfold_result.
  destruct (merge_all _ _ _ _ _ _) as [v|e] eqn:E.
  - intros [= <- _]. by eapply merge_all_nrows.
  - by destruct e.
Qed.

Lemma load_data_row_count_witness : nrows sample_view = nrows sample_factsale.
Proof.
  apply (load_data_row_count sample_fs
           {| data_cache := None; shown_errors := [] |}
           {| data_cache := Some sample_view; shown_errors := [] |}
           sample_factsale sample_dimcustomer sample_dimcity sample_dimdate
           sample_dimemployee sample_dimstockitem sample_view);
    vm_compute; reflexivity.
Defined.

Lemma expected_files_eq :
  expected_files =
    ["Data/FactSale.csv"; "Data/DimCostumer.csv"; "Data/DimCity.csv";
     "Data/DimDate.csv"; "Data/DimEmployee.csv"; "Data/DimStockItem.csv"].
Proof. reflexivity. Qed.

(** With a file absent the [try] block raises at the first absent file it
    reads, before any merge. *)
Lemma load_data_try_missing (fs : gmap string DataFrame) (path : string) :
  In path expected_files ->
  fs !! path = None ->
  exists p, In p expected_files /\ fs !! p = None /\
            load_data_try fs = Raise (FileNotFoundError p).
Proof.
  rewrite expected_files_eq, load_data_try_paths. unfold read_csv.
  intros Hin Hnone.
  destruct (fs !! "Data/FactSale.csv") eqn:E1;
    [|exists "Data/FactSale.csv"; simpl; auto].
  destruct (fs !! "Data/DimCostumer.csv") eqn:E2;
    [|exists "Data/DimCostumer.csv"; simpl; auto].
  destruct (fs !! "Data/DimCity.csv") eqn:E3;
    [|exists "Data/DimCity.csv"; simpl; auto].
  destruct (fs !! "Data/DimDate.csv") eqn:E4;
    [|exists "Data/DimDate.csv"; simpl; auto 6].
  destruct (fs !! "Data/DimEmployee.csv") eqn:E5;
    [|exists "Data/DimEmployee.csv"; simpl; auto 7].
  destruct (fs !! "Data/DimStockItem.csv") eqn:E6;
    [|exists "Data/DimStockItem.csv"; simpl; auto 8].
  simpl in Hin. destruct Hin as [<-|[<-|[<-|[<-|[<-|[<-|[]]]]]]]; congruence.
Qed.

(** C3. When one of the six expected files is absent and no view is
    cached, [load_data] raises [FileNotFoundError] for an absent file: the
    [try] block yields no view, the message is shown, the exception is
    raised again and the cache stays empty.  A later call on a directory
    whose load succeeds returns that view and caches it. *)
Theorem missing_file_raises (fs : gmap string DataFrame) (s : app_state)
    (path : string) :
  In path expected_files ->
  fs !! path = None ->
  data_cache s = None ->
  exists p,
    In p expected_files /\ fs !! p = None /\
    load_data_try fs = Raise (FileNotFoundError p) /\
    load_data fs s = (Raise (FileNotFoundError p), st_error not_found_msg s) /\
    data_cache (snd (load_data fs s)) = None /\
    forall fs' view,
      load_data_try fs' = Ok view ->
      exists s2, load_data fs' (snd (load_data fs s)) = (Ok view, s2) /\
                 data_cache s2 = Some view.
Proof.
  intros Hin Hnone Hcold.
  destruct (load_data_try_missing fs path Hin Hnone) as (p & Hp & Hpn & Htry).
  exists p. rewrite (load_data_cold fs s Hcold), Htry; simpl.
  repeat split; try done.
  intros fs' view Hok.
  rewrite (load_data_cold fs' (st_error not_found_msg s)) by done.
  rewrite Hok. eauto.
Qed.

Lemma missing_file_raises_witness :
  exists p,
    In p expected_files /\ delete "Data/DimCity.csv" sample_fs !! p = None /\
    load_data_try (delete "Data/DimCity.csv" sample_fs)
    = Raise (FileNotFoundError p) /\
    load_data (delete "Data/DimCity.csv" sample_fs)
      {| data_cache := None; shown_errors := [] |}
    = (Raise (FileNotFoundError p),
       st_error not_found_msg {| data_cache := None; shown_errors := [] |}) /\
    data_cache (snd (load_data (delete "Data/DimCity.csv" sample_fs)
                       {| data_cache := None; shown_errors := [] |})) = None /\
    forall fs' view,
      load_data_try fs' = Ok view ->
      exists s2,
        load_data fs' (snd (load_data (delete "Data/DimCity.csv" sample_fs)
                              {| data_cache := None; shown_errors := [] |}))
        = (Ok view, s2) /\
        data_cache s2 = Some view.
Proof.
  apply (missing_file_raises (delete "Data/DimCity.csv" sample_fs)
           {| data_cache := None; shown_errors := [] |} "Data/DimCity.csv").
  - vm_compute. auto.
  - vm_compute. reflexivity.
  - reflexivity.
Defined.

(** ** Grouped sums *)












(** ** Claims on the metrics *)










(** C2. On a frame without rows that has the color, size and unit price
    columns, the metrics are computed without an exception: no unique
    color, no unique size, a total revenue of zero, and an average unit
    price that is not a number. *)
Theorem aggregate_empty (df : DataFrame) :
  rows df = [] ->
  has_col df "Color" = true ->
  has_col df "Unit Price" = true ->
  has_col df "Size" = true ->
  aggregate df = Ok {| uniqueColors := 0; avgUnitPrice := None;
                       uniqueSizes := 0; totalRevenue := 0 |}.
Proof.
  unfold has_col, aggregate, unique_colors, avg_unit_price, unique_sizes,
    total_revenue. rewrite !get_col_index.
  intros ->.
  destruct (index_of "Color" _); [|done].
  destruct (index_of "Unit Price" _); [|done].
  destruct (index_of "Size" _); [|done].
  reflexivity.
Qed.

Lemma aggregate_empty_witness :
  aggregate (boolean_index sample_view [false; false; false])
  = Ok {| uniqueColors := 0; avgUnitPrice := None;
          uniqueSizes := 0; totalRevenue := 0 |}.
Proof.
  apply (aggregate_empty (boolean_index sample_view [false; false; false]));
    reflexivity.
Defined.

(** * Further properties *)

(** ** [filter_data]: composition of selections *)

Lemma state_ok_All cols r : state_ok cols All r = true.
Proof. reflexivity. Qed.

Lemma kept_rows_state_All df y :
  kept_rows df All y = List.filter (year_ok (columns df) y) (rows df).
Proof.
  unfold kept_rows. f_equal.
  rewrite (List.filter_ext _ (fun _ => true) (state_ok_All (columns df))).
  apply filter_true.
Qed.

Lemma filter_comm {A} (f g : A -> bool) (l : list A) :
  List.filter f (List.filter g l) = List.filter g (List.filter f l).
Proof.
  induction l as [|x l IH]; simpl; [done|].
  destruct (f x) eqn:Hf, (g x) eqn:Hg; simpl; rewrite ?Hf, ?Hg, IH; done.
Qed.

Lemma filter_idem {A} (f : A -> bool) (l : list A) :
  List.filter f (List.filter f l) = List.filter f l.
Proof.
  induction l as [|x l IH]; simpl; [done|].
  destruct (f x) eqn:Hf; simpl; rewrite ?Hf, IH; done.
Qed.

Lemma kept_rows_after_state df s y :
  kept_rows {| columns := columns df; rows := kept_rows df s All |} All y
  = kept_rows df s y.
Proof. rewrite kept_rows_state_All; simpl. by rewrite kept_rows_year_All. Qed.

Lemma kept_rows_after_year df s y :
  kept_rows {| columns := columns df; rows := kept_rows df All y |} s All
  = kept_rows df s y.
Proof.
  rewrite kept_rows_year_All, kept_rows_state_All; simpl.
  unfold kept_rows. apply filter_comm.
Qed.

(** Selecting state and year in one call is selecting the state first and
    the year on the frame that gives, exceptions included. *)
Theorem filter_data_state_then_year (df : DataFrame) (state year : pyval) :
  filter_data df state year
  = (w ← filter_data df state All; filter_data w All year).
Proof.
  rewrite (filter_data_unfold df state All), py_ne_All.
  rewrite (filter_data_unfold df state year).
  destruct (py_ne state All && negb (has_col df "State Province")); [done|].
  unfold mbind, result_bind.
  rewrite filter_data_unfold, py_ne_All, kept_rows_after_state.
  reflexivity.
Qed.

(** The two selections commute: when either order returns a frame, the
    other returns the same frame. *)
Theorem filter_data_selections_commute (df : DataFrame) (state year : pyval)
    (v : DataFrame) :
  filter_data df state year = Ok v <->
  (w ← filter_data df All year; filter_data w state All) = Ok v.
Proof.
  rewrite (filter_data_unfold df All year), (filter_data_unfold df state year).
  rewrite py_ne_All; simpl.
  destruct (py_ne state All && negb (has_col df "State Province")) eqn:Hs.
  - split; [done|]. destruct (py_ne year All).
    + destruct (has_col df "Calendar Year"); [|done].
      destruct (py_int year); [|done]. unfold_result.
      rewrite filter_data_unfold.
      change (has_col {| columns := columns df; rows := kept_rows df All year |}
                "State Province") with (has_col df "State Province").
      by rewrite Hs.
    + unfold_result. rewrite filter_data_unfold.
      change (has_col {| columns := columns df; rows := kept_rows df All year |}
                "State Province") with (has_col df "State Province").
      by rewrite Hs.
  - pose proof (kept_rows_after_year df state year) as Hrows.
    assert (Hstep : filter_data {| columns := columns df;
                                   rows := kept_rows df All year |} state All
                    = Ok {| columns := columns df;
                            rows := kept_rows df state year |}).
    { rewrite filter_data_unfold.
      change (has_col {| columns := columns df; rows := kept_rows df All year |}
                "State Province") with (has_col df "State Province").
      by rewrite Hs, py_ne_All, Hrows. }
    destruct (py_ne year All).
    + destruct (has_col df "Calendar Year"); [|done].
      destruct (py_int year); [|done]. unfold_result. by rewrite Hstep.
    + unfold_result. by rewrite Hstep.
Qed.

Lemma filter_data_selections_commute_witness :
  filter_data sample_view (PyStr "Nevada") (PyInt 2013)
  = Ok (boolean_index sample_view [false; false; true]) <->
  (w ← filter_data sample_view All (PyInt 2013);
   filter_data w (PyStr "Nevada") All)
  = Ok (boolean_index sample_view [false; false; true]).
Proof.
  apply (filter_data_selections_commute sample_view (PyStr "Nevada")
           (PyInt 2013)).
Defined.

(** Applying the same selections to the frame they returned changes
    nothing. *)
Theorem filter_data_idempotent (df : DataFrame) (state year : pyval)
    (v : DataFrame) :
  filter_data df state year = Ok v ->
  filter_data v state year = Ok v.
Proof.
  intros Hv. destruct (filter_data_rows _ _ _ _ Hv) as [Hc Hr].
  revert Hv. rewrite !filter_data_unfold. unfold has_col.
  assert (Hk : kept_rows v state year = rows v).
  { unfold kept_rows. rewrite Hc, Hr. unfold kept_rows.
    set (f := state_ok (columns df) state).
    set (g := year_ok (columns df) year).
    rewrite (filter_comm f g (List.filter f (rows df))).
    by rewrite !filter_idem. }
  rewrite Hk, Hc.
  destruct (py_ne state All && _); [done|].
  destruct (py_ne year All).
  - destruct (index_of "Calendar Year" (columns df)); [|done].
    destruct (py_int year); [|done]. intros _. destruct v; simpl in *.
    by subst.
  - intros _. destruct v; simpl in *. by subst.
Qed.

Lemma filter_data_idempotent_witness :
  filter_data (boolean_index sample_view [false; false; true])
    (PyStr "Nevada") (PyInt 2013)
  = Ok (boolean_index sample_view [false; false; true]).
Proof.
  apply (filter_data_idempotent sample_view (PyStr "Nevada") (PyInt 2013)).
  vm_compute. reflexivity.
Defined.

(** ** [merge]: what a left merge returns *)

Lemma merge_inv left right left_on right_on suffixes v :
  merge left right left_on right_on suffixes = Ok v ->
  exists li ri labels,
    index_of left_on (columns left) = Some li /\
    index_of right_on (columns right) = Some ri /\
    merge_labels (columns left)
      (right_part (String.eqb left_on right_on) ri (columns right)) suffixes
    = Ok labels /\
    columns v = labels /\
    rows v = flat_map
               (join_row li (map (cell_at ri) (rows right))
                  (map (right_part (String.eqb left_on right_on) ri)
                       (rows right))
                  (length (right_part (String.eqb left_on right_on) ri
                             (columns right))))
               (rows left).
Proof.
  unfold merge, right_part.
  destruct (index_of right_on (columns right)) as [ri|]; [|done].
  destruct (index_of left_on (columns left)) as [li|]; [|done].
  destruct (merge_labels _ _ _) as [labels|] eqn:E; unfold_result; [|done].
  intros [= <-]. exists li, ri, labels. repeat split; try done.
  simpl. destruct (String.eqb left_on right_on); [done|].
  by rewrite map_id.
Qed.

Lemma select_map_map {A B} (p : A -> bool) (g : A -> B) (l : list A) :
  select (map p l) (map g l) = map g (List.filter p l).
Proof.
  induction l as [|x l IH]; simpl; [done|].
  destruct (p x); simpl; by rewrite IH.
Qed.

Lemma join_row_matches li ri (right_rows : list (list cell)) g width lrow :
  join_row li (map (cell_at ri) right_rows) (map g right_rows) width lrow
  = match List.filter (fun rrow => same_key (cell_at li lrow) (cell_at ri rrow))
            right_rows with
    | [] => [lrow ++ replicate width NaN]
    | ms => map (fun rrow => lrow ++ g rrow) ms
    end.
Proof.
  unfold join_row. rewrite map_map.
  rewrite (select_map_map
             (fun rrow => same_key (cell_at li lrow) (cell_at ri rrow)) g).
  destruct (List.filter _ right_rows); simpl; [done|].
  by rewrite map_map.
Qed.

Lemma filter_nil_none {A} (f : A -> bool) (l : list A) :
  List.filter f l = [] -> forall x, In x l -> f x = false.
Proof.
  intros H x Hx. destruct (f x) eqn:E; [|done].
  assert (In x (List.filter f l)) as Hin by (by apply filter_In).
  by rewrite H in Hin.
Qed.

(** A left merge loses no row of the left frame and alters none: every
    left row opens a row of the result, and every row of the result opens
    with a left row.  This needs no uniqueness of keys. *)
Theorem merge_keeps_left_rows (left right : DataFrame)
    (left_on right_on : string) (suffixes : string * string) (v : DataFrame) :
  merge left right left_on right_on suffixes = Ok v ->
  nrows left <= nrows v /\
  (forall lrow, In lrow (rows left) ->
     exists rest, In (lrow ++ rest) (rows v)) /\
  (forall out, In out (rows v) ->
     exists lrow rest, In lrow (rows left) /\ out = lrow ++ rest).
Proof.
  intros (li & ri & labels & _ & _ & _ & _ & Hrows)%merge_inv.
  unfold nrows. rewrite Hrows. clear Hrows.
  set (w := length (right_part _ ri (columns right))).
  set (g := right_part _ ri).
  assert (Hjoin : forall lrow,
            exists rest more,
              join_row li (map (cell_at ri) (rows right))
                (map g (rows right)) w lrow = (lrow ++ rest) :: more /\
              forall out, In out ((lrow ++ rest) :: more) ->
                exists rest', out = lrow ++ rest').
  { intros lrow. rewrite join_row_matches.
    destruct (List.filter _ (rows right)) as [|m ms]; simpl.
    - eexists _, []. split; [done|]. intros out [<-|[]]. eauto.
    - eexists _, _. split; [done|].
      intros out [<-|(r & <- & _)%in_map_iff]; eauto. }
  split; [|split].
  - induction (rows left) as [|lrow l IH]; simpl; [lia|].
    destruct (Hjoin lrow) as (rest & more & -> & _).
    rewrite length_app. simpl. lia.
  - intros lrow Hin. destruct (Hjoin lrow) as (rest & more & E & _).
    exists rest. apply in_flat_map. exists lrow. split; [done|].
    rewrite E. by left.
  - intros out (lrow & Hin & Hout)%in_flat_map.
    destruct (Hjoin lrow) as (rest & more & E & Hall).
    rewrite E in Hout. destruct (Hall out Hout) as (rest' & ->). eauto.
Qed.

Lemma merge_keeps_left_rows_witness :
  nrows sample_factsale <= nrows sample_fact_date /\
  (forall lrow, In lrow (rows sample_factsale) ->
     exists rest, In (lrow ++ rest) (rows sample_fact_date)) /\
  (forall out, In out (rows sample_fact_date) ->
     exists lrow rest, In lrow (rows sample_factsale) /\ out = lrow ++ rest).
Proof.
  apply (merge_keeps_left_rows sample_factsale sample_dimdate
           "Invoice Date Key" "Date" ("_x", "_y")).
  vm_compute. reflexivity.
Defined.

Lemma filter_id_map_length {A} (p : A -> bool) (l : list A) :
  length (List.filter id (map p l)) = length (List.filter p l).
Proof.
  induction l as [|x l IH]; [done|].
  cbn [map List.filter]. unfold id at 1.
  destruct (p x); cbn [length]; by rewrite IH.
Qed.

Lemma unique_filter_le_1 (k : cell) (ri : nat) (right_rows : list (list cell)) :
  is_unique (map (cell_at ri) right_rows) = true ->
  length (List.filter (fun rrow => same_key k (cell_at ri rrow)) right_rows)
  <= 1.
Proof.
  intros Hu. rewrite <- filter_id_map_length, <- map_map.
  by apply unique_matches_le_1.
Qed.

Lemma merge_rows_unique (left right : DataFrame)
    (left_on right_on : string) (suffixes : string * string) (v : DataFrame)
    (li ri : nat) :
  merge left right left_on right_on suffixes = Ok v ->
  unique_key right right_on = true ->
  index_of left_on (columns left) = Some li ->
  index_of right_on (columns right) = Some ri ->
  Forall2
    (fun lrow out =>
       ((forall rrow, In rrow (rows right) ->
           same_key (cell_at li lrow) (cell_at ri rrow) = false) /\
        out = lrow ++ replicate
                (length (right_part (String.eqb left_on right_on) ri
                           (columns right))) NaN)
       \/
       (exists rrow, In rrow (rows right) /\
          same_key (cell_at li lrow) (cell_at ri rrow) = true /\
          out = lrow ++ right_part (String.eqb left_on right_on) ri rrow))
    (rows left) (rows v).
Proof.
  intros (li' & ri' & labels & Hli & Hri & _ & _ & Hrows)%merge_inv Hu Eli Eri.
  rewrite Eli in Hli. rewrite Eri in Hri.
  injection Hli as <-. injection Hri as <-.
  unfold unique_key in Hu. rewrite get_col_index, Eri in Hu.
  rewrite Hrows. clear Hrows.
  induction (rows left) as [|lrow l IH]; simpl; [constructor|].
  rewrite join_row_matches.
  pose proof (unique_filter_le_1 (cell_at li lrow) ri (rows right) Hu) as Hle.
  destruct (List.filter _ (rows right)) as [|m [|m' ms]] eqn:E;
    simpl in Hle; [| |lia].
  - simpl. constructor; [|done]. left. split; [|done].
    by apply filter_nil_none.
  - simpl. constructor; [|done]. right. exists m.
    assert (In m (List.filter
                    (fun rrow => same_key (cell_at li lrow) (cell_at ri rrow))
                    (rows right))) as [Hin Hm]%filter_In
      by (rewrite E; by left).
    done.
Qed.

(** Against a right frame with unique keys a left merge works row by row:
    the i-th row of the result is the i-th left row followed by the cells
    of the one right row with the same key, or by missing cells when no
    right row has that key. *)
Theorem merge_row_by_row (left right : DataFrame)
    (left_on right_on : string) (suffixes : string * string) (v : DataFrame)
    (li ri : nat) :
  merge left right left_on right_on suffixes = Ok v ->
  unique_key right right_on = true ->
  index_of left_on (columns left) = Some li ->
  index_of right_on (columns right) = Some ri ->
  Forall2
    (fun lrow out =>
       ((forall rrow, In rrow (rows right) ->
           same_key (cell_at li lrow) (cell_at ri rrow) = false) /\
        out = lrow ++ replicate
                (length (right_part (String.eqb left_on right_on) ri
                           (columns right))) NaN)
       \/
       (exists rrow, In rrow (rows right) /\
          same_key (cell_at li lrow) (cell_at ri rrow) = true /\
          out = lrow ++ right_part (String.eqb left_on right_on) ri rrow))
    (rows left) (rows v).
Proof. apply merge_rows_unique. Qed.

Lemma merge_row_by_row_witness :
  Forall2
    (fun lrow out =>
       ((forall rrow, In rrow (rows sample_dimdate) ->
           same_key (cell_at 5 lrow) (cell_at 0 rrow) = false) /\
        out = lrow ++ replicate
                (length (right_part (String.eqb "Invoice Date Key" "Date") 0
                           (columns sample_dimdate))) NaN)
       \/
       (exists rrow, In rrow (rows sample_dimdate) /\
          same_key (cell_at 5 lrow) (cell_at 0 rrow) = true /\
          out = lrow ++ right_part (String.eqb "Invoice Date Key" "Date") 0
                          rrow))
    (rows sample_factsale) (rows sample_fact_date).
Proof.
  apply (merge_row_by_row sample_factsale sample_dimdate
           "Invoice Date Key" "Date" ("_x", "_y") sample_fact_date 5 0);
    vm_compute; reflexivity.
Defined.

(** ** [merge] and [load_data]: the columns of the left frame *)

Lemma append_empty_r (s : string) : (s ++ "")%string = s.
Proof.
  induction s as [|a s IH]; [done|].
  change (String a (s ++ "")%string = String a s). by rewrite IH.
Qed.

Lemma mem_In x l : mem x l = true <-> In x l.
Proof.
  unfold mem. rewrite existsb_exists. split.
  - intros (y & Hy & ->%String.eqb_eq). done.
  - intros H. exists x. split; [done | apply String.eqb_refl].
Qed.

Lemma In_delete {A} (x : A) (i : nat) (l : list A) :
  In x (delete i l) -> In x l.
Proof.
  revert i. induction l as [|y l IH]; intros [|i]; simpl; eauto.
  intros [->|H]; eauto.
Qed.

Lemma index_of_app_l label l1 l2 i :
  index_of label l1 = Some i -> index_of label (l1 ++ l2) = Some i.
Proof.
  revert i. induction l1 as [|c l1 IH]; simpl; intros i; [done|].
  destruct (String.eqb label c); [done|].
  destruct (index_of label l1) as [j|]; simpl; [|done].
  intros [= <-]. by rewrite (IH j).
Qed.

Lemma index_of_lt label l i : index_of label l = Some i -> i < length l.
Proof.
  revert i. induction l as [|c l IH]; simpl; intros i; [done|].
  destruct (String.eqb label c); [intros [= <-]; lia|].
  destruct (index_of label l) as [j|]; simpl; [|done].
  intros [= <-]. specialize (IH j eq_refl). lia.
Qed.

(** A label its suffix leaves alone keeps its position among the renamed
    labels, unless the renaming creates a duplicate. *)
Lemma index_of_renamed (ren : string -> string) (label : string) :
  ren label = label ->
  forall old seen_old seen_new i,
    existsb (fun p : bool * bool => snd p && negb (fst p))
      (zip (duplicated_from seen_old old)
           (duplicated_from seen_new (map ren old))) = false ->
    index_of label old = Some i ->
    mem label seen_old = false ->
    index_of label (map ren old) = Some i /\ mem label seen_new = false.
Proof.
  intros Hren. induction old as [|x old IH]; intros so sn i; [done|].
  cbn [map duplicated_from zip zip_with existsb index_of fst snd].
  intros [Hx Hrest]%orb_false_iff.
  destruct (String.eqb label x) eqn:E.
  - apply String.eqb_eq in E. subst x. intros [= <-] Hso.
    rewrite Hren, String.eqb_refl. split; [done|].
    rewrite Hren, Hso in Hx. simpl in Hx. by rewrite andb_true_r in Hx.
  - destruct (index_of label old) as [j|] eqn:Ej; simpl; [|done].
    intros [= <-] Hso.
    destruct (IH (x :: so) (ren x :: sn) j Hrest eq_refl) as [Hj Hsn].
    { unfold mem in *. simpl. by rewrite E, Hso. }
    unfold mem in Hsn. simpl in Hsn. apply orb_false_iff in Hsn as [E' Hsn].
    rewrite E', Hj. done.
Qed.

Lemma merge_labels_inv lcols rcols suffixes labels :
  merge_labels lcols rcols suffixes = Ok labels ->
  let overlap := List.filter (fun x => mem x rcols) lcols in
  suffix_dups lcols (map (rename overlap (fst suffixes)) lcols) = false /\
  labels = map (rename overlap (fst suffixes)) lcols
           ++ map (rename overlap (snd suffixes)) rcols.
Proof.
  unfold merge_labels. cbv zeta.
  destruct (suffix_dups lcols _) eqn:E1; [done|].
  destruct (_ || _); [done|]. by intros [= <-].
Qed.

(** A column of the left frame whose label the merge does not rename is
    found under that label in the result, with the same cells, when the
    keys of the right frame are unique. *)
Lemma merge_keeps_column left right left_on right_on suffixes v label i :
  merge left right left_on right_on suffixes = Ok v ->
  unique_key right right_on = true ->
  index_of label (columns left) = Some i ->
  Forall (fun r => i < length r) (rows left) ->
  fst suffixes = "" \/ mem label (columns right) = false ->
  index_of label (columns v) = Some i /\
  map (cell_at i) (rows v) = map (cell_at i) (rows left) /\
  Forall (fun r => i < length r) (rows v).
Proof.
  intros Hm Hu Hi Hlen Hsfx.
  pose proof Hm as (li & ri & labels & Hli & Hri & Hlab & Hcols & _)%merge_inv.
  pose proof (merge_rows_unique _ _ _ _ _ _ li ri Hm Hu Hli Hri) as Hrows.
  apply merge_labels_inv in Hlab as [Hdup ->]. cbv zeta in Hdup.
  split; [|split].
  - rewrite Hcols. apply index_of_app_l.
    refine (proj1 (index_of_renamed _ label _ (columns left) [] [] i
                     Hdup Hi eq_refl)).
    unfold rename. destruct Hsfx as [->|Hno].
    + destruct (mem label (List.filter _ (columns left)));
        [apply append_empty_r | done].
    + destruct (mem label (List.filter _ (columns left))) eqn:E; [|done].
      apply mem_In, filter_In in E as [_ E].
      apply mem_In in E. apply not_true_iff_false in Hno. destruct Hno.
      apply mem_In. unfold right_part in E.
      destruct (String.eqb left_on right_on); [|done].
      by apply In_delete in E.
  - clear -Hrows Hlen. induction Hrows as [|lrow out l l' HR _ IH]; [done|].
    inversion Hlen as [|? ? Hlt Hlen']; subst. simpl. rewrite IH by done.
    f_equal. unfold cell_at.
    destruct HR as [[_ ->]|(rrow & _ & _ & ->)]; by rewrite app_nth1.
  - clear -Hrows Hlen. induction Hrows as [|lrow out l l' HR _ IH]; [done|].
    inversion Hlen as [|? ? Hlt Hlen']; subst. constructor; [|by apply IH].
    destruct HR as [[_ ->]|(rrow & _ & _ & ->)]; rewrite length_app; lia.
Qed.

Lemma merge_all_keeps_column f c ci d e st v label i :
  merge_all f c ci d e st = Ok v ->
  unique_dimension_keys c ci d e st = true ->
  index_of label (columns f) = Some i ->
  Forall (fun r => i < length r) (rows f) ->
  mem label (columns d) = false ->
  index_of label (columns v) = Some i /\
  map (cell_at i) (rows v) = map (cell_at i) (rows f).
Proof.
  unfold unique_dimension_keys, merge_all.
  intros Hm ((((U1 & U2)%andb_true_iff & U3)%andb_true_iff
              & U4)%andb_true_iff & U5)%andb_true_iff Hi Hlen Hd.
  revert Hm.
  destruct (merge f c _ _ _) as [m1|] eqn:E1; unfold_result; [|done].
  destruct (merge m1 ci _ _ _) as [m2|] eqn:E2; [|done].
  destruct (merge m2 e _ _ _) as [m3|] eqn:E3; [|done].
  destruct (merge m3 st _ _ _) as [m4|] eqn:E4; [|done].
  intros E5.
  destruct (merge_keeps_column _ _ _ _ _ _ label i E1 U1 Hi Hlen)
    as (I1 & R1 & L1); [by left|].
  destruct (merge_keeps_column _ _ _ _ _ _ label i E2 U2 I1 L1)
    as (I2 & R2 & L2); [by left|].
  destruct (merge_keeps_column _ _ _ _ _ _ label i E3 U3 I2 L2)
    as (I3 & R3 & L3); [by left|].
  destruct (merge_keeps_column _ _ _ _ _ _ label i E4 U4 I3 L3)
    as (I4 & R4 & L4); [by left|].
  destruct (merge_keeps_column _ _ _ _ _ _ label i E5 U5 I4 L4)
    as (I5 & R5 & L5); [by right|].
  split; [done|]. congruence.
Qed.

Lemma load_data_cold_ok fs s s' view :
  data_cache s = None ->
  load_data fs s = (Ok view, s') ->
  load_data_try fs = Ok view.
Proof.
  intros Hc. rewrite (load_data_cold fs s Hc).
  destruct (load_data_try fs) as [w|[]]; try done. by intros [= <- _].
Qed.

Lemma load_data_try_tables fs f c ci d e st :
  holds_tables fs f c ci d e st ->
  load_data_try fs = merge_all f c ci d e st.
Proof.
  intros (Ff & Fc & Fci & Fd & Fe & Fst).
  rewrite load_data_try_paths. unfold read_csv.
  by rewrite Ff, Fc, Fci, Fd, Fe, Fst.
Qed.

Lemma rectangular_Forall df :
  rectangular df = true <->
  Forall (fun r => length r = length (columns df)) (rows df).
Proof.
  unfold rectangular. rewrite forallb_forall, List.Forall_forall.
  split; intros H r Hr; specialize (H r Hr); by apply Nat.eqb_eq.
Qed.

(** [load_data] carries every column of the fact table into the view under
    its label, cell by cell, provided the dimension keys are unique and the
    date table has no column of that label (the last merge would suffix
    it). *)
Theorem load_data_keeps_fact_columns (fs : gmap string DataFrame)
    (s s' : app_state)
    (factsale dimcustomer dimcity dimdate dimemployee dimstockitem
     view : DataFrame) (label : string) :
  holds_tables fs factsale dimcustomer dimcity dimdate dimemployee
    dimstockitem ->
  unique_dimension_keys dimcustomer dimcity dimdate dimemployee dimstockitem
  = true ->
  rectangular factsale = true ->
  has_col factsale label = true ->
  mem label (columns dimdate) = false ->
  data_cache s = None ->
  load_data fs s = (Ok view, s') ->
  get_col view label = get_col factsale label.
Proof.
  intros Ht Hu Hrect Hcol Hd Hcold Hload.
  apply (load_data_cold_ok _ _ _ _ Hcold) in Hload.
  rewrite (load_data_try_tables _ _ _ _ _ _ _ Ht) in Hload.
  unfold has_col in Hcol.
  destruct (index_of label (columns factsale)) as [i|] eqn:Hi; [|done].
  destruct (merge_all_keeps_column _ _ _ _ _ _ _ label i Hload Hu Hi)
    as [Hiv Hrows]; [|done|].
  - apply rectangular_Forall in Hrect.
    apply index_of_lt in Hi.
    eapply Forall_impl; [exact Hrect|]. simpl. intros r ->. done.
  - by rewrite !get_col_index, Hi, Hiv, Hrows.
Qed.

Lemma load_data_keeps_fact_columns_witness :
  get_col sample_view "Tax Amount" = get_col sample_factsale "Tax Amount".
Proof.
  apply (load_data_keeps_fact_columns sample_fs
           {| data_cache := None; shown_errors := [] |}
           {| data_cache := Some sample_view; shown_errors := [] |}
           sample_factsale sample_dimcustomer sample_dimcity sample_dimdate
           sample_dimemployee sample_dimstockitem sample_view "Tax Amount");
    try (vm_compute; reflexivity).
  vm_compute. repeat split.
Defined.

(** The total revenue over the whole view is the sum of the unit prices of
    the fact table: the merges add no sale line and change no price. *)
Theorem total_revenue_of_view_is_of_fact_table (fs : gmap string DataFrame)
    (s s' : app_state)
    (factsale dimcustomer dimcity dimdate dimemployee dimstockitem
     view : DataFrame) :
  holds_tables fs factsale dimcustomer dimcity dimdate dimemployee
    dimstockitem ->
  unique_dimension_keys dimcustomer dimcity dimdate dimemployee dimstockitem
  = true ->
  rectangular factsale = true ->
  has_col factsale "Unit Price" = true ->
  mem "Unit Price" (columns dimdate) = false ->
  data_cache s = None ->
  load_data fs s = (Ok view, s') ->
  total_revenue view = total_revenue factsale.
Proof.
  intros Ht Hu Hrect Hcol Hd Hcold Hload.
  apply (load_data_cold_ok _ _ _ _ Hcold) in Hload.
  rewrite (load_data_try_tables _ _ _ _ _ _ _ Ht) in Hload.
  unfold has_col in Hcol.
  destruct (index_of "Unit Price" (columns factsale)) as [i|] eqn:Hi; [|done].
  destruct (merge_all_keeps_column _ _ _ _ _ _ _ "Unit Price" i Hload Hu Hi)
    as [Hiv Hrows]; [|done|].
  - apply rectangular_Forall in Hrect.
    apply index_of_lt in Hi.
    eapply Forall_impl; [exact Hrect|]. simpl. intros r ->. done.
  - unfold total_revenue. by rewrite !get_col_index, Hi, Hiv, Hrows.
Qed.

Lemma total_revenue_of_view_is_of_fact_table_witness :
  total_revenue sample_view = total_revenue sample_factsale.
Proof.
  apply (total_revenue_of_view_is_of_fact_table sample_fs
           {| data_cache := None; shown_errors := [] |}
           {| data_cache := Some sample_view; shown_errors := [] |}
           sample_factsale sample_dimcustomer sample_dimcity sample_dimdate
           sample_dimemployee sample_dimstockitem sample_view);
    try (vm_compute; reflexivity).
  vm_compute. repeat split.
Defined.

(** ** Rectangular frames *)

Lemma right_part_length {A B} (on : bool) (ri : nat) (l : list A) (k : list B) :
  length l = length k -> ri < length k ->
  length (right_part on ri l) = length (right_part on ri k).
Proof.
  intros Hlen Hri. unfold right_part. destruct on; [|done].
  rewrite !length_delete; [lia | |]; apply lookup_lt_is_Some; lia.
Qed.

Lemma merge_rectangular left right left_on right_on suffixes v :
  merge left right left_on right_on suffixes = Ok v ->
  rectangular left = true ->
  rectangular right = true ->
  rectangular v = true.
Proof.
  intros (li & ri & labels & _ & Hri & Hlab & Hcols & Hrows)%merge_inv.
  rewrite !rectangular_Forall, !List.Forall_forall. intros Hl Hr out.
  apply merge_labels_inv in Hlab as [_ ->].
  rewrite Hcols, Hrows, length_app, !length_map.
  intros (lrow & Hlrow & Hout)%in_flat_map.
  rewrite join_row_matches in Hout.
  destruct (List.filter _ (rows right)) as [|m ms] eqn:E.
  - destruct Hout as [<-|[]].
    by rewrite length_app, length_replicate, (Hl lrow).
  - apply in_map_iff in Hout as (rrow & <- & Hin).
    rewrite <- E in Hin. apply filter_In in Hin as [Hin _].
    rewrite length_app, (Hl lrow) by done. f_equal.
    apply right_part_length; [by apply Hr | by eapply index_of_lt].
Qed.

Lemma merge_all_rectangular f c ci d e st v :
  merge_all f c ci d e st = Ok v ->
  rectangular f = true -> rectangular c = true -> rectangular ci = true ->
  rectangular d = true -> rectangular e = true -> rectangular st = true ->
  rectangular v = true.
Proof.
  unfold merge_all. intros Hm Rf Rc Rci Rd Re Rst. revert Hm.
  destruct (merge f c _ _ _) as [m1|] eqn:E1; unfold_result; [|done].
  destruct (merge m1 ci _ _ _) as [m2|] eqn:E2; [|done].
  destruct (merge m2 e _ _ _) as [m3|] eqn:E3; [|done].
  destruct (merge m3 st _ _ _) as [m4|] eqn:E4; [|done].
  intros E5.
  eauto 10 using merge_rectangular.
Qed.

(** When the six tables are rectangular, so is the view [load_data]
    returns, and so is every frame [filter_data] returns on it. *)
Theorem view_and_selections_are_rectangular (fs : gmap string DataFrame)
    (s s' : app_state)
    (factsale dimcustomer dimcity dimdate dimemployee dimstockitem
     view : DataFrame) :
  holds_tables fs factsale dimcustomer dimcity dimdate dimemployee
    dimstockitem ->
  rectangular factsale && rectangular dimcustomer && rectangular dimcity
  && rectangular dimdate && rectangular dimemployee
  && rectangular dimstockitem = true ->
  data_cache s = None ->
  load_data fs s = (Ok view, s') ->
  rectangular view = true /\
  forall state year w,
    filter_data view state year = Ok w -> rectangular w = true.
Proof.
  intros Ht (((((Rf & Rc)%andb_true_iff & Rci)%andb_true_iff
               & Rd)%andb_true_iff & Re)%andb_true_iff
             & Rst)%andb_true_iff Hcold Hload.
  apply (load_data_cold_ok _ _ _ _ Hcold) in Hload.
  rewrite (load_data_try_tables _ _ _ _ _ _ _ Ht) in Hload.
  assert (Hv : rectangular view = true)
    by (by eapply (merge_all_rectangular factsale)).
  split; [done|]. intros state year w [Hc Hr]%filter_data_rows.
  revert Hv. rewrite !rectangular_Forall, !List.Forall_forall, Hc, Hr.
  intros Hv r [Hin _]%In_kept_rows. by apply Hv.
Qed.

Lemma view_and_selections_are_rectangular_witness :
  rectangular sample_view = true /\
  forall state year w,
    filter_data sample_view state year = Ok w -> rectangular w = true.
Proof.
  apply (view_and_selections_are_rectangular sample_fs
           {| data_cache := None; shown_errors := [] |}
           {| data_cache := Some sample_view; shown_errors := [] |}
           sample_factsale sample_dimcustomer sample_dimcity sample_dimdate
           sample_dimemployee sample_dimstockitem sample_view);
    try (vm_compute; reflexivity).
  vm_compute. repeat split.
Defined.

(** ** [load_data]: the cache and the exception handler *)

(** Once [load_data] has returned a view, every later call returns that
    view and changes nothing, whatever the data directory holds by then:
    the files are not read again. *)
Theorem load_data_returns_cached_view (fs fs' : gmap string DataFrame)
    (s s' : app_state) (view : DataFrame) :
  load_data fs s = (Ok view, s') ->
  load_data fs' s' = (Ok view, s').
Proof.
  unfold load_data, cache_data.
  destruct (data_cache s) as [c|] eqn:Hc.
  - intros [= <- <-]. by rewrite Hc.
  - destruct (load_data_body fs s) as [[w|e] s1]; [|done].
    by intros [= <- <-].
Qed.

Lemma load_data_returns_cached_view_witness :
  load_data ∅ {| data_cache := Some sample_view; shown_errors := [] |}
  = (Ok sample_view, {| data_cache := Some sample_view; shown_errors := [] |}).
Proof.
  apply (load_data_returns_cached_view sample_fs ∅
           {| data_cache := None; shown_errors := [] |}).
  vm_compute. reflexivity.
Defined.

(** The handler of [load_data] covers missing files only.  When the files
    are there but the fact table or the customer table lacks the column
    [Customer Key], [load_data] raises [KeyError] for it, shows no message
    and caches nothing. *)
Theorem load_data_missing_key_column (fs : gmap string DataFrame)
    (s : app_state)
    (factsale dimcustomer dimcity dimdate dimemployee dimstockitem
     : DataFrame) :
  holds_tables fs factsale dimcustomer dimcity dimdate dimemployee
    dimstockitem ->
  has_col factsale "Customer Key" && has_col dimcustomer "Customer Key"
  = false ->
  data_cache s = None ->
  load_data fs s = (Raise (KeyError "Customer Key"), s).
Proof.
  intros Ht Hcol Hcold.
  rewrite (load_data_cold fs s Hcold), (load_data_try_tables _ _ _ _ _ _ _ Ht).
  assert (E : merge factsale dimcustomer "Customer Key" "Customer Key"
                 ("", "_customer") = Raise (KeyError "Customer Key")).
  { unfold merge. unfold has_col in Hcol.
    destruct (index_of "Customer Key" (columns dimcustomer)); [|done].
    destruct (index_of "Customer Key" (columns factsale)); done. }
  unfold merge_all. by rewrite E.
Qed.

Lemma load_data_missing_key_column_witness :
  load_data (<["Data/DimCostumer.csv" := sample_dimdate]> sample_fs)
    {| data_cache := None; shown_errors := [] |}
  = (Raise (KeyError "Customer Key"),
     {| data_cache := None; shown_errors := [] |}).
Proof.
  apply (load_data_missing_key_column
           (<["Data/DimCostumer.csv" := sample_dimdate]> sample_fs)
           {| data_cache := None; shown_errors := [] |}
           sample_factsale sample_dimdate sample_dimcity sample_dimdate
           sample_dimemployee sample_dimstockitem);
    try (vm_compute; reflexivity).
  vm_compute. repeat split.
Defined.

(** ** The select boxes of [main] *)

Lemma In_insert_key x k ks : In x (insert_key k ks) <-> x = k \/ In x ks.
Proof.
  induction ks as [|k' ks IH]; simpl; [intuition congruence|].
  destruct (key_leb k k'); simpl; [intuition congruence|].
  rewrite IH. intuition congruence.
Qed.

Lemma In_sort_keys x ks : In x (sort_keys ks) <-> In x ks.
Proof.
  induction ks as [|k ks IH]; simpl; [done|].
  rewrite In_insert_key, IH. intuition congruence.
Qed.

Lemma In_unique_from c acc col : In c (unique_from acc col) -> In c col.
Proof.
  revert acc. induction col as [|x col IH]; intros acc; simpl; [done|].
  destruct (seen x acc); simpl; [eauto|]. intros [->|H]; eauto.
Qed.

Lemma same_key_str s c : same_key (Str s) c = true <-> c = Str s.
Proof.
  destruct c as [|t|q]; simpl; try (split; [done | congruence]).
  rewrite String.eqb_eq. split; congruence.
Qed.

Lemma In_str_unique_from s acc col :
  In (Str s) col -> seen (Str s) acc = false ->
  In (Str s) (unique_from acc col).
Proof.
  revert acc. induction col as [|x col IH]; intros acc; simpl; [done|].
  intros Hin Hacc. destruct (seen x acc) eqn:Hx.
  - destruct Hin as [->|Hin]; [congruence | by apply IH].
  - destruct Hin as [->|Hin]; [by left|].
    destruct (same_key (Str s) x) eqn:E.
    + apply same_key_str in E as ->. by left.
    + right. apply IH; [done|].
      change (same_key (Str s) x || seen (Str s) acc = false).
      by rewrite E, Hacc.
Qed.

Lemma In_str_unique s col : In (Str s) (unique col) <-> In (Str s) col.
Proof.
  split; [apply In_unique_from | intros H; by apply In_str_unique_from].
Qed.

Lemma py_sorted_inv l xs : py_sorted l = Ok xs -> xs = sort_keys l.
Proof.
  unfold py_sorted. destruct (_ && _); [done|]. by intros [= <-].
Qed.

Lemma state_options_inv df opts :
  state_options df = Ok opts ->
  exists i,
    index_of "State Province" (columns df) = Some i /\
    forall s, In (Str s) opts <->
      s = "Todos" \/ exists r, In r (rows df) /\ cell_at i r = Str s.
Proof.
  unfold state_options. rewrite get_col_index.
  destruct (index_of "State Province" (columns df)) as [i|]; [|done].
  unfold_result.
  destruct (py_sorted _) as [xs|] eqn:E; [|done].
  intros [= <-]. exists i. split; [done|]. intros s.
  apply py_sorted_inv in E as ->. simpl.
  rewrite In_sort_keys, filter_In, In_str_unique, in_map_iff.
  split.
  - intros [[= ->]|[(r & Hr & Hin) _]]; eauto.
  - intros [->|(r & Hin & Hr)]; eauto.
Qed.

Lemma kept_rows_state_nonempty df s i :
  py_ne (PyStr s) All = true ->
  index_of "State Province" (columns df) = Some i ->
  kept_rows df (PyStr s) All <> [] <->
  exists r, In r (rows df) /\ cell_at i r = Str s.
Proof.
  intros Hne Hi. rewrite kept_rows_year_All. split.
  - destruct (List.filter _ (rows df)) as [|r l] eqn:E; [done|]. intros _.
    assert (In r (List.filter (state_ok (columns df) (PyStr s)) (rows df)))
      as [Hin Hok]%filter_In by (rewrite E; by left).
    unfold state_ok in Hok. rewrite Hne, Hi in Hok.
    apply cell_eq_str in Hok. eauto.
  - intros (r & Hin & Hr) E.
    assert (In r (List.filter (state_ok (columns df) (PyStr s)) (rows df)))
      as Hin'.
    { apply filter_In. split; [done|]. unfold state_ok.
      rewrite Hne, Hi. by apply cell_eq_str. }
    by rewrite E in Hin'.
Qed.

Lemma filter_data_state_only df s i :
  index_of "State Province" (columns df) = Some i ->
  filter_data df (PyStr s) All
  = Ok {| columns := columns df; rows := kept_rows df (PyStr s) All |}.
Proof.
  intros Hi. rewrite filter_data_unfold, py_ne_All. unfold has_col.
  by rewrite Hi, andb_false_r.
Qed.

Lemma filter_data_no_selection df : filter_data df All All = Ok df.
Proof.
  rewrite filter_data_unfold; simpl.
  rewrite kept_rows_year_All.
  rewrite (List.filter_ext _ (fun _ => true) (state_ok_All (columns df))).
  rewrite filter_true. by destruct df.
Qed.

(** The state select box offers exactly the states that select something:
    a string other than the two sentinels is among the options if and only
    if [filter_data] returns at least one row for it. *)
Theorem offered_states_are_the_nonempty_ones (df : DataFrame)
    (opts : list cell) (s : string) :
  state_options df = Ok opts ->
  s <> "All" -> s <> "Todos" ->
  In (Str s) opts <->
  exists v, filter_data df (PyStr s) All = Ok v /\ rows v <> [].
Proof.
  intros (i & Hi & Hopts)%state_options_inv HAll HTodos.
  assert (Hne : py_ne (PyStr s) All = true).
  { simpl. by apply negb_true_iff, String.eqb_neq. }
  rewrite Hopts, (filter_data_state_only df s i Hi).
  rewrite <- (kept_rows_state_nonempty df s i Hne Hi). split.
  - intros [->|H]; [done|]. eauto.
  - intros (v & [= <-] & H). by right.
Qed.

Lemma offered_states_are_the_nonempty_ones_witness :
  In (Str "Nevada") [Str "Todos"; Str "California"; Str "Nevada"] <->
  exists v, filter_data sample_view (PyStr "Nevada") All = Ok v /\
            rows v <> [].
Proof.
  apply (offered_states_are_the_nonempty_ones sample_view
           [Str "Todos"; Str "California"; Str "Nevada"] "Nevada");
    [vm_compute; reflexivity | discriminate | discriminate].
Defined.

(** Whatever option of the state select box is chosen, with the year left
    at ['Todos'], the call of [filter_data] in [main] returns a frame, and
    one with at least one row unless the view has none.  This covers a
    state that is itself named ['Todos'] or ['All']: choosing it returns
    the whole view. *)
Theorem every_state_option_selects_rows (df : DataFrame) (opts : list cell)
    (s : string) :
  state_options df = Ok opts ->
  In (Str s) opts ->
  exists v, main_filter df (PyStr s) (PyStr "Todos") = Ok v /\
            (rows df <> [] -> rows v <> []) /\
            (s = "Todos" \/ s = "All" -> v = df).
Proof.
  intros (i & Hi & Hopts)%state_options_inv Hin.
  unfold main_filter.
  change (filter_arg (PyStr "Todos")) with All.
  destruct (String.eqb s "Todos") eqn:ET.
  { apply String.eqb_eq in ET as ->.
    change (filter_arg (PyStr "Todos")) with All.
    exists df. by rewrite filter_data_no_selection. }
  assert (filter_arg (PyStr s) = PyStr s) as ->.
  { unfold filter_arg; simpl. by rewrite ET. }
  destruct (String.eqb s "All") eqn:EA.
  { apply String.eqb_eq in EA as ->. exists df.
    change (PyStr "All") with All. by rewrite filter_data_no_selection. }
  apply String.eqb_neq in ET, EA.
  rewrite (filter_data_state_only df s i Hi). eexists; split; [done|].
  simpl. split; [|by intros [|]]. intros _.
  apply (kept_rows_state_nonempty df s i); [|done|].
  - simpl. by apply negb_true_iff, String.eqb_neq.
  - apply Hopts in Hin as [|]; done.
Qed.

Lemma every_state_option_selects_rows_witness :
  exists v, main_filter sample_view (PyStr "California") (PyStr "Todos")
            = Ok v /\
            (rows sample_view <> [] -> rows v <> []) /\
            ("California" = "Todos" \/ "California" = "All" ->
             v = sample_view).
Proof.
  apply (every_state_option_selects_rows sample_view
           [Str "Todos"; Str "California"; Str "Nevada"] "California").
  - vm_compute. reflexivity.
  - simpl. auto.
Defined.

Lemma In_insert_Z x z l : In x (insert_Z z l) <-> x = z \/ In x l.
Proof.
  induction l as [|y l IH]; simpl; [intuition congruence|].
  destruct (z <=? y)%Z; simpl; [intuition congruence|].
  rewrite IH. intuition congruence.
Qed.

Lemma In_sort_Z x l : In x (sort_Z l) <-> In x l.
Proof.
  induction l as [|z l IH]; simpl; [done|].
  rewrite In_insert_Z, IH. intuition congruence.
Qed.

Lemma mapM_In {A B} (f : A -> result B) (l : list A) (ys : list B) (y : B) :
  mapM f l = Ok ys -> In y ys -> exists x, In x l /\ f x = Ok y.
Proof.
  revert ys. induction l as [|x l IH]; simpl; intros ys.
  - by intros [= <-].
  - destruct (f x) as [b|] eqn:E; unfold_result; [|done].
    destruct (mapM f l) as [bs|]; [|done].
    intros [= <-] [<-|Hin]; [eauto|].
    destruct (IH bs eq_refl Hin) as (x' & ? & ?). eauto.
Qed.

Lemma year_options_inv df yopts :
  year_options df = Ok yopts ->
  exists j,
    index_of "Calendar Year" (columns df) = Some j /\
    forall sel, In sel yopts ->
      sel = PyStr "Todos" \/
      exists y r, sel = PyInt y /\ In r (rows df) /\
                  notna (cell_at j r) = true /\
                  cell_int (cell_at j r) = Ok y.
Proof.
  unfold year_options. rewrite get_col_index.
  destruct (index_of "Calendar Year" (columns df)) as [j|]; [|done].
  unfold_result.
  destruct (mapM cell_int _) as [ys|] eqn:E; [|done].
  intros [= <-]. exists j. split; [done|].
  intros sel [<-|(y & <- & Hy)%in_map_iff]; [by left|]. right.
  apply (proj1 (In_sort_Z _ _)) in Hy.
  destruct (mapM_In _ _ _ _ E Hy) as (c & [Hc Hna]%filter_In & Hint).
  apply In_unique_from, in_map_iff in Hc as (r & <- & Hr).
  eauto 10.
Qed.

(** With selections taken from the two select boxes, the call of
    [filter_data] in [main] never raises: the columns it reads exist and
    every year offered is an integer. *)
Theorem offered_selections_never_raise (df : DataFrame)
    (sopts : list cell) (yopts : list pyval) (s : string) (year : pyval) :
  state_options df = Ok sopts ->
  year_options df = Ok yopts ->
  In (Str s) sopts ->
  In year yopts ->
  exists v, main_filter df (PyStr s) year = Ok v.
Proof.
  intros (i & Hi & _)%state_options_inv (j & Hj & Hy)%year_options_inv _ Hin.
  unfold main_filter. rewrite filter_data_unfold. unfold has_col.
  rewrite Hi, Hj, andb_false_r.
  destruct (Hy year Hin) as [->|(y & r & -> & _)].
  - change (filter_arg (PyStr "Todos")) with All. rewrite py_ne_All. eauto.
  - change (filter_arg (PyInt y)) with (PyInt y). simpl. eauto.
Qed.

Lemma offered_selections_never_raise_witness :
  exists v, main_filter sample_view (PyStr "Nevada") (PyInt 2013) = Ok v.
Proof.
  apply (offered_selections_never_raise sample_view
           [Str "Todos"; Str "California"; Str "Nevada"]
           [PyStr "Todos"; PyInt 2013] "Nevada" (PyInt 2013));
    try (vm_compute; reflexivity); simpl; auto.
Defined.

(** On a view whose years are whole numbers, every year the select box
    offers selects at least one row. *)
Theorem every_year_option_selects_rows (df : DataFrame)
    (yopts : list pyval) (y : Z) :
  year_options df = Ok yopts ->
  whole_years df = true ->
  In (PyInt y) yopts ->
  exists v, main_filter df (PyStr "Todos") (PyInt y) = Ok v /\ rows v <> [].
Proof.
  intros (j & Hj & Hy)%year_options_inv Hwhole Hin.
  destruct (Hy _ Hin) as [|(y' & r & [= <-] & Hr & Hna & Hint)]; [done|].
  unfold whole_years in Hwhole. rewrite get_col_index, Hj in Hwhole.
  rewrite forallb_forall in Hwhole.
  specialize (Hwhole (cell_at j r) (in_map _ _ _ Hr)).
  unfold main_filter.
  change (filter_arg (PyStr "Todos")) with All.
  change (filter_arg (PyInt y)) with (PyInt y).
  rewrite filter_data_unfold. unfold has_col. rewrite Hj. simpl.
  eexists; split; [done|]. simpl. rewrite kept_rows_state_All.
  intros E.
  assert (In r (List.filter (year_ok (columns df) (PyInt y)) (rows df)))
    as Hin'.
  { apply filter_In. split; [done|]. unfold year_ok. rewrite Hj. simpl.
    destruct (cell_at j r) as [|t|q]; [done..|].
    simpl in Hint, Hwhole. injection Hint as <-. done. }
  by rewrite E in Hin'.
Qed.

Lemma every_year_option_selects_rows_witness :
  exists v, main_filter sample_view (PyStr "Todos") (PyInt 2013) = Ok v /\
            rows v <> [].
Proof.
  apply (every_year_option_selects_rows sample_view
           [PyStr "Todos"; PyInt 2013] 2013);
    try (vm_compute; reflexivity); simpl; auto.
Defined.

(** ** Revenue by state *)










Lemma unique_from_all_seen acc col :
  (forall c, In c col -> seen c acc = true) -> unique_from acc col = [].
Proof.
  induction col as [|c col IH]; simpl; intros H; [done|].
  rewrite (H c) by auto. apply IH. auto.
Qed.

Lemma unique_constant k col :
  (forall c, In c col -> c = k) -> length (unique col) <= 1.
Proof.
  unfold unique. destruct col as [|c col]; simpl; intros H; [lia|].
  rewrite unique_from_all_seen; [simpl; lia|].
  intros c' Hc'. rewrite (H c') by auto. rewrite (H c) by auto.
  simpl. by rewrite same_key_refl.
Qed.

Lemma length_insert_key k ks : length (insert_key k ks) = S (length ks).
Proof.
  induction ks as [|k' ks IH]; simpl; [done|].
  destruct (key_leb k k'); simpl; [done|]. by rewrite IH.
Qed.

Lemma length_sort_keys ks : length (sort_keys ks) = length ks.
Proof.
  induction ks as [|k ks IH]; simpl; [done|].
  by rewrite length_insert_key, IH.
Qed.

(** Once a state is selected, [state_revenue] reports that state alone:
    at most one group, with the selected state as its key. *)
Theorem selected_state_is_the_only_group (df : DataFrame) (s : string)
    (year : pyval) (v : DataFrame) (g : list (cell * Q * cell)) :
  s <> "All" ->
  filter_data df (PyStr s) year = Ok v ->
  state_revenue v = Ok g ->
  length g <= 1 /\
  forall k t code, In (k, t, code) g -> k = Str s.
Proof.
  intros Hs [Hc Hr]%filter_data_rows.
  unfold state_revenue, groupby_sum. rewrite !get_col_index, Hc, Hr.
  destruct (index_of "State Province" (columns df)) as [i|] eqn:Hi;
    unfold_result; [|done].
  destruct (index_of "Unit Price" (columns df)) as [j|]; [|done].
  destruct (as_float _) as [xs|]; [|done].
  intros [= <-].
  assert (Hne : py_ne (PyStr s) All = true).
  { simpl. by apply negb_true_iff, String.eqb_neq. }
  set (state := map (cell_at i) (kept_rows df (PyStr s) year)).
  assert (Hall : forall c, In c state -> c = Str s).
  { intros c (r & <- & Hin)%in_map_iff.
    apply In_kept_rows in Hin as (_ & Hok & _).
    unfold state_ok in Hok. rewrite Hne, Hi in Hok.
    by apply cell_eq_str. }
  assert (Hdrop : forall c, In c (dropna state) -> c = Str s).
  { intros c [Hin _]%filter_In. by apply Hall. }
  split.
  - rewrite !length_map. unfold groupby_keys. rewrite length_sort_keys.
    by apply (unique_constant (Str s)).
  - intros k t code Hin. rewrite map_map in Hin.
    apply in_map_iff in Hin as (k' & [= <- _ _] & Hk).
    unfold groupby_keys in Hk.
    apply In_sort_keys, In_unique_from in Hk. by apply Hdrop.
Qed.

Lemma selected_state_is_the_only_group_witness :
  length [(Str "Nevada", 5 # 2, Str "NV")] <= 1 /\
  forall k t code, In (k, t, code) [(Str "Nevada", 5 # 2, Str "NV")] ->
                   k = Str "Nevada".
Proof.
  apply (selected_state_is_the_only_group sample_view "Nevada" (PyInt 2013)
           (boolean_index sample_view [false; false; true])).
  - discriminate.
  - vm_compute. reflexivity.
  - vm_compute. reflexivity.
Defined.

(** ** The placeholder group *)

Lemma In_fillna c col v :
  In c (fillna col v) <-> exists c0, In c0 col /\ c = (if isna c0 then v else c0).
Proof.
  unfold fillna. rewrite in_map_iff. split; intros (c0 & ? & ?); eauto.
Qed.

(** The placeholder group ['Sin Talla'] is among the sales by size exactly
    when some row has no size (or has the placeholder itself as its
    size). *)
Theorem placeholder_group_iff_missing_size (df : DataFrame)
    (g : list (cell * Q)) (i : nat) :
  size_sales df = Ok g ->
  index_of "Size" (columns df) = Some i ->
  (exists t, In (Str "Sin Talla", t) g) <->
  exists r, In r (rows df) /\
            (cell_at i r = NaN \/ cell_at i r = Str "Sin Talla").
Proof.
  unfold size_sales, groupby_sum. rewrite !get_col_index.
  intros Hg Hi. rewrite Hi in Hg. unfold_result.
  destruct (index_of "Unit Price" (columns df)) as [j|]; [|done].
  destruct (as_float _) as [xs|]; [|done]. injection Hg as <-.
  set (keys := fillna (map (cell_at i) (rows df)) (Str "Sin Talla")).
  assert (Hkeys : In (Str "Sin Talla") (groupby_keys keys) <->
                  In (Str "Sin Talla") keys).
  { unfold groupby_keys. rewrite In_sort_keys, In_str_unique.
    unfold dropna. rewrite filter_In. simpl. tauto. }
  assert (Hin : In (Str "Sin Talla") keys <->
                exists r, In r (rows df) /\
                  (cell_at i r = NaN \/ cell_at i r = Str "Sin Talla")).
  { unfold keys. rewrite In_fillna. split.
    - intros (c0 & (r & <- & Hr)%in_map_iff & Hc).
      exists r. split; [done|].
      destruct (cell_at i r); simpl in Hc; auto.
    - intros (r & Hr & Hc). exists (cell_at i r).
      split; [by apply in_map|]. by destruct Hc as [->| ->]. }
  rewrite <- Hin, <- Hkeys. split.
  - intros (t & (k & [= <- _] & Hk)%in_map_iff). done.
  - intros Hk. eexists. apply in_map_iff. eauto.
Qed.

Lemma placeholder_group_iff_missing_size_witness :
  (exists t, In (Str "Sin Talla", t)
               [(Str "L", 25 # 2); (Str "Sin Talla", 20%Q)]) <->
  exists r, In r (rows sample_view) /\
            (cell_at 17 r = NaN \/ cell_at 17 r = Str "Sin Talla").
Proof.
  apply (placeholder_group_iff_missing_size sample_view
           [(Str "L", 25 # 2); (Str "Sin Talla", 20%Q)] 17);
    vm_compute; reflexivity.
Defined.
